(** * Market-data quote facade: normalizer, fetcher and batch aggregator

    A shallow embedding of [main.py]: the quote normalizer
    ([normalize_quote]), the quote fetcher ([get_quote]) and the batch
    endpoint ([get_tickers]), with the Python values, exceptions and
    float arithmetic they rely on.

    Conventions of the embedding:
    - a Python [str] is a [string] of 8-bit characters; [upper], [lower] and
      [strip] act on the ASCII range and leave other characters unchanged;
    - a Python [float] is an IEEE 754 binary64 value, a [spec_float] with
      precision 53 and maximal exponent 1024;
    - a decoded JSON document is a [value]; a [dict] is an association list
      read by its first matching key;
    - a Python computation that may raise is a [result]. *)

From Stdlib Require Import ZArith List String Ascii Bool Lia.
From Stdlib Require Import Floats.SpecFloat.
Import ListNotations.
Open Scope string_scope.
Open Scope Z_scope.

(** ** Characters and strings *)

Module Str.

Definition code (c : ascii) : Z := Z.of_N (N_of_ascii c).

Definition is_digit (c : ascii) : bool := (48 <=? code c) && (code c <=? 57).
Definition digit_val (c : ascii) : Z := code c - 48.

(** Characters for which [str.isspace] holds, in the ASCII range. *)
Definition is_space (c : ascii) : bool :=
  ((9 <=? code c) && (code c <=? 13)) || ((28 <=? code c) && (code c <=? 32)).

Definition upper_char (c : ascii) : ascii :=
  if (97 <=? code c) && (code c <=? 122)
  then ascii_of_N (Z.to_N (code c - 32)) else c.

Definition lower_char (c : ascii) : ascii :=
  if (65 <=? code c) && (code c <=? 90)
  then ascii_of_N (Z.to_N (code c + 32)) else c.

Fixpoint map_chars (f : ascii -> ascii) (s : string) : string :=
  match s with
  | EmptyString => EmptyString
  | String c r => String (f c) (map_chars f r)
  end.

(** [s.upper()] and [s.lower()] *)
Definition upper : string -> string := map_chars upper_char.
Definition lower : string -> string := map_chars lower_char.

Fixpoint lstrip (p : ascii -> bool) (s : string) : string :=
  match s with
  | EmptyString => EmptyString
  | String c r => if p c then lstrip p r else s
  end.

Fixpoint rstrip (p : ascii -> bool) (s : string) : string :=
  match s with
  | EmptyString => EmptyString
  | String c r =>
      match rstrip p r with
      | EmptyString => if p c then EmptyString else String c EmptyString
      | r' => String c r'
      end
  end.

Fixpoint mem_char (c : ascii) (chars : string) : bool :=
  match chars with
  | EmptyString => false
  | String d r => Ascii.eqb c d || mem_char c r
  end.

(** [s.strip()] removes leading and trailing whitespace;
    [s.strip(chars)] removes leading and trailing characters of [chars]. *)
Definition strip (s : string) : string := rstrip is_space (lstrip is_space s).
Definition strip_chars (chars s : string) : string :=
  rstrip (fun c => mem_char c chars) (lstrip (fun c => mem_char c chars) s).

(** [s.split(sep)] for a one-character separator: never an empty list. *)
Fixpoint split (sep : ascii) (s : string) : list string :=
  match s with
  | EmptyString => [EmptyString]
  | String c r =>
      if Ascii.eqb c sep then EmptyString :: split sep r
      else match split sep r with
           | [] => [String c EmptyString]
           | w :: ws => String c w :: ws
           end
  end.

Definition is_empty (s : string) : bool :=
  match s with EmptyString => true | _ => false end.

End Str.

(** ** Binary64 floats *)

Module Float.

Definition prec : Z := 53.
Definition emax : Z := 1024.

Definition t := spec_float.

Definition of_Z (n : Z) : t := binary_normalize prec emax n 0 false.

Definition zero : t := S754_zero false.
Definition neg_zero : t := S754_zero true.
Definition nan : t := S754_nan.
Definition inf : t := S754_infinity false.

Definition sub : t -> t -> t := SFsub prec emax.
Definition mul : t -> t -> t := SFmul prec emax.
Definition div : t -> t -> t := SFdiv prec emax.
Definition eqb : t -> t -> bool := SFeqb.

Definition is_finite (x : t) : bool :=
  match x with
  | S754_zero _ | S754_finite _ _ _ => true
  | S754_infinity _ | S754_nan => false
  end.

(** The float nearest to [(-1)^neg * m * 10^e], ties to even.  For a
    negative exponent the quotient is computed with more than 64 bits and a
    sticky last bit, so that the final rounding sees on which side of a
    midpoint the exact value lies. *)
Definition of_decimal (neg : bool) (m e : Z) : t :=
  if m =? 0 then S754_zero neg
  else if 0 <=? e then
    let n := m * 10 ^ e in
    binary_normalize prec emax (if neg then - n else n) 0 false
  else
    let d := 10 ^ (- e) in
    let k := Z.max 0 (Z.log2 d - Z.log2 m + 66) in
    let q := (m * 2 ^ k) / d in
    let r := (m * 2 ^ k) mod d in
    let n := 2 * q + (if r =? 0 then 0 else 1) in
    binary_normalize prec emax (if neg then - n else n) (- k - 1) false.

(** A run of decimal digits in which single underscores may separate
    digits: the value read, the number of digits, and the rest. *)
Fixpoint scan_digits (s : string) (after_digit : bool) (acc n : Z)
  : option (Z * Z * string) :=
  match s with
  | EmptyString => Some (acc, n, s)
  | String c r =>
      if Str.is_digit c then
        scan_digits r true (acc * 10 + Str.digit_val c) (n + 1)
      else if Ascii.eqb c "_" then
        match after_digit, r with
        | true, String d _ =>
            if Str.is_digit d then scan_digits r false acc n else None
        | _, _ => None
        end
      else Some (acc, n, s)
  end.

Definition parse_exponent (s : string) : option Z :=
  let '(neg, body) :=
    match s with
    | String "-" r => (true, r)
    | String "+" r => (false, r)
    | _ => (false, s)
    end in
  match scan_digits body false 0 0 with
  | Some (v, n, EmptyString) =>
      if 0 <? n then Some (if neg then - v else v) else None
  | _ => None
  end.

Definition parse_decimal (neg : bool) (s : string) : option t :=
  match scan_digits s false 0 0 with
  | None => None
  | Some (ip, ni, r1) =>
      let frac :=
        match r1 with
        | String "." r => scan_digits r false 0 0
        | _ => Some (0, 0, r1)
        end in
      match frac with
      | None => None
      | Some (fp, nf, r2) =>
          if 0 <? ni + nf then
            let m := ip * 10 ^ nf + fp in
            match r2 with
            | EmptyString => Some (of_decimal neg m (- nf))
            | String c r3 =>
                if Ascii.eqb c "e" || Ascii.eqb c "E" then
                  match parse_exponent r3 with
                  | Some ex => Some (of_decimal neg m (ex - nf))
                  | None => None
                  end
                else None
            end
          else None
      end
  end.

(** The characters [float] skips around a literal: the space and
    [\t \n \v \f \r].  Unlike [str.strip] it keeps the separators 0x1C to
    0x1F, which then make the literal invalid. *)
Definition is_space (c : ascii) : bool :=
  ((9 <=? Str.code c) && (Str.code c <=? 13)) || (Str.code c =? 32).

(** [float(s)] for a string: surrounding whitespace is dropped, then an
    optional sign, then [inf], [infinity], [nan] (any case) or a decimal
    literal.  [None] stands for [ValueError]. *)
Definition of_string (s : string) : option t :=
  let s1 := Str.rstrip is_space (Str.lstrip is_space s) in
  let '(neg, body) :=
    match s1 with
    | String "-" r => (true, r)
    | String "+" r => (false, r)
    | _ => (false, s1)
    end in
  let low := Str.lower body in
  if String.eqb low "inf" || String.eqb low "infinity" then
    Some (S754_infinity neg)
  else if String.eqb low "nan" then Some S754_nan
  else parse_decimal neg body.

End Float.

(** ** Python values, exceptions and the builtins used by the program *)

Set Warnings "-register-all,-notation-for-abbreviation".


(** A decoded JSON document, as [json.loads] builds it; also the records the
    program returns. *)
Inductive value : Type :=
| VNone
| VBool (b : bool)
| VInt (n : Z)
| VFloat (x : Float.t)
| VStr (s : string)
| VList (items : list value)
| VDict (entries : list (string * value)).

(** The built-in exception classes the normalizer can meet; each derives
    from [Exception]. *)
Inductive builtin_error : Type :=
| AttributeError | TypeError | ValueError | OverflowError
| IndexError | KeyError | ZeroDivisionError.

(** An answer of the [requests] library: the status code, the text of the
    [HTTPError] that [raise_for_status] builds for it, and the decoded body
    ([inl msg] when the body is not JSON). *)
Record response : Type := mkResponse {
  status_code : Z;
  error_text : string;
  body : string + value
}.

Inductive exn : Type :=
| Builtin (k : builtin_error) (msg : string)
| HTTPException (status : Z) (detail : string)   (* fastapi *)
| HTTPError (resp : response) (msg : string)     (* requests.HTTPError *)
| RequestException (msg : string).               (* any other requests error *)

(** [str(e)] *)
Definition str_exn (e : exn) : string :=
  match e with
  | Builtin _ msg => msg
  | HTTPException _ detail => detail
  | HTTPError _ msg => msg
  | RequestException msg => msg
  end.

Inductive result (A : Type) : Type :=
| Ok (a : A)
| Err (e : exn).
Arguments Ok {A} a.
Arguments Err {A} e.

Definition bind {A B : Type} (m : result A) (k : A -> result B) : result B :=
  match m with
  | Ok a => k a
  | Err e => Err e
  end.

Declare Scope result_scope.
Delimit Scope result_scope with result.
Notation "'let*' x ':=' m 'in' k" := (bind m (fun x => k))
  (at level 10, x name, m at level 100, k at level 200) : result_scope.
Open Scope result_scope.

Definition raise {A : Type} (k : builtin_error) (msg : string) : result A :=
  Err (Builtin k msg).

Module Py.

(** Truth value of an object, as [or], [not] and [if] test it. *)
Definition truthy (v : value) : bool :=
  match v with
  | VNone => false
  | VBool b => b
  | VInt n => negb (n =? 0)
  | VFloat x => negb (Float.eqb x Float.zero)
  | VStr s => negb (Str.is_empty s)
  | VList items => match items with [] => false | _ => true end
  | VDict entries => match entries with [] => false | _ => true end
  end.

(** [a or b] *)
Definition or_ (a b : value) : value := if truthy a then a else b.

Fixpoint lookup (entries : list (string * value)) (key : string)
  : option value :=
  match entries with
  | [] => None
  | (k, v) :: rest => if String.eqb k key then Some v else lookup rest key
  end.

(** [obj.get(key, default)]: only a [dict] has the method. *)
Definition get (obj : value) (key : string) (default : value) : result value :=
  match obj with
  | VDict entries =>
      Ok (match lookup entries key with Some v => v | None => default end)
  | _ => raise AttributeError "object has no attribute 'get'"
  end.

(** [obj[0]] *)
Definition item0 (obj : value) : result value :=
  match obj with
  | VList (x :: _) => Ok x
  | VList [] => raise IndexError "list index out of range"
  | VStr (String c _) => Ok (VStr (String c EmptyString))
  | VStr EmptyString => raise IndexError "string index out of range"
  | VDict _ => raise KeyError "0"
  | _ => raise TypeError "object is not subscriptable"
  end.

(** [obj.strip(chars)]: only a [str] has the method. *)
Definition strip (obj : value) (chars : string) : result value :=
  match obj with
  | VStr s => Ok (VStr (Str.strip_chars chars s))
  | _ => raise AttributeError "object has no attribute 'strip'"
  end.

(** [float(obj)] *)
Definition float (obj : value) : result Float.t :=
  match obj with
  | VBool b => Ok (Float.of_Z (if b then 1 else 0))
  | VInt n =>
      match Float.of_Z n with
      | S754_infinity _ => raise OverflowError "int too large to convert to float"
      | x => Ok x
      end
  | VFloat x => Ok x
  | VStr s =>
      match Float.of_string s with
      | Some x => Ok x
      | None => raise ValueError "could not convert string to float"
      end
  | VNone | VList _ | VDict _ =>
      raise TypeError "float() argument must be a string or a real number"
  end.

(** [a / b] on floats raises on a zero divisor. *)
Definition truediv (a b : Float.t) : result Float.t :=
  if Float.eqb b Float.zero then raise ZeroDivisionError "float division by zero"
  else Ok (Float.div a b).

End Py.

(** ** Quote normalizer *)

Definition supported_providers : list string :=
  ["alpha_vantage"; "finnhub"; "twelve"; "polygon"; "fmp"].

(** [base = {"symbol": symbol, "provider": provider}], [symbol] already
    upper-cased. *)
Definition base (symbol provider : string) : list (string * value) :=
  [("symbol", VStr symbol); ("provider", VStr provider)].

(** The record returned after the [try] block:
    [{**base, "price": 0.0, "changePercent": 0.0}]. *)
Definition fallback (symbol provider : string) : value :=
  VDict (base symbol provider ++
         [("price", VFloat Float.zero); ("changePercent", VFloat Float.zero)]).

(** [float(obj.get(key) or 0)] *)
Definition float_field (obj : value) (key : string) : result Float.t :=
  let* v := Py.get obj key VNone in
  Py.float (Py.or_ v (VInt 0)).

(** [float(obj.get(key, 0) or 0)] *)
Definition float_field0 (obj : value) (key : string) : result Float.t :=
  let* v := Py.get obj key (VInt 0) in
  Py.float (Py.or_ v (VInt 0)).

(** [obj.get(key) or 0], not converted *)
Definition raw_field (obj : value) (key : string) : result value :=
  let* v := Py.get obj key VNone in
  Ok (Py.or_ v (VInt 0)).

Definition alpha_vantage_quote (b : list (string * value)) (raw : value)
  : result value :=
  let* gq := Py.get raw "Global Quote" (VDict []) in
  let* price := float_field0 gq "05. price" in
  let* pct := Py.get gq "10. change percent" (VStr "0%") in
  let* pct' := Py.strip (Py.or_ pct (VStr "0")) "%" in
  let* changePercent := Py.float pct' in
  let* open := float_field0 gq "02. open" in
  let* high := float_field0 gq "03. high" in
  let* low := float_field0 gq "04. low" in
  let* previousClose := float_field0 gq "08. previous close" in
  let* timestamp := Py.get gq "07. latest trading day" VNone in
  Ok (VDict (b ++ [("price", VFloat price);
                   ("changePercent", VFloat changePercent);
                   ("open", VFloat open);
                   ("high", VFloat high);
                   ("low", VFloat low);
                   ("previousClose", VFloat previousClose);
                   ("timestamp", timestamp)])).

Definition finnhub_quote (b : list (string * value)) (raw : value)
  : result value :=
  let* price := float_field raw "c" in
  let* changePercent := float_field raw "dp" in
  let* open := float_field raw "o" in
  let* high := float_field raw "h" in
  let* low := float_field raw "l" in
  let* previousClose := float_field raw "pc" in
  let* timestamp := Py.get raw "t" VNone in
  Ok (VDict (b ++ [("price", VFloat price);
                   ("changePercent", VFloat changePercent);
                   ("open", VFloat open);
                   ("high", VFloat high);
                   ("low", VFloat low);
                   ("previousClose", VFloat previousClose);
                   ("timestamp", timestamp)])).

Definition twelve_quote (b : list (string * value)) (raw : value)
  : result value :=
  let* price := float_field raw "price" in
  let* changePercent := float_field raw "percent_change" in
  let* open := float_field raw "open" in
  let* high := float_field raw "high" in
  let* low := float_field raw "low" in
  let* previousClose := float_field raw "previous_close" in
  let* timestamp := Py.get raw "timestamp" VNone in
  Ok (VDict (b ++ [("price", VFloat price);
                   ("changePercent", VFloat changePercent);
                   ("open", VFloat open);
                   ("high", VFloat high);
                   ("low", VFloat low);
                   ("previousClose", VFloat previousClose);
                   ("timestamp", timestamp)])).

(** [0.0 if prev == 0 else ((close - prev) / prev) * 100] *)
Definition polygon_change (close prev : Float.t) : result Float.t :=
  if Float.eqb prev (Float.of_Z 0) then Ok Float.zero
  else
    let* q := Py.truediv (Float.sub close prev) prev in
    Ok (Float.mul q (Float.of_Z 100)).

Definition polygon_quote (b : list (string * value)) (raw : value)
  : result value :=
  let* results := Py.get raw "results" VNone in
  let* res0 := Py.item0 (Py.or_ results (VList [VDict []])) in
  let* close := float_field res0 "c" in
  let* open_ := float_field res0 "o" in
  let* high := float_field res0 "h" in
  let* low := float_field res0 "l" in
  let* prev := float_field res0 "c" in
  let* changePercent := polygon_change close prev in
  let* timestamp := Py.get res0 "t" VNone in
  Ok (VDict (b ++ [("price", VFloat close);
                   ("changePercent", VFloat changePercent);
                   ("open", VFloat open_);
                   ("high", VFloat high);
                   ("low", VFloat low);
                   ("previousClose", VFloat prev);
                   ("timestamp", timestamp)])).

Definition fmp_quote (b : list (string * value)) (raw : value)
  : result value :=
  let* res0 := Py.item0 (Py.or_ raw (VList [VDict []])) in
  let* price := float_field res0 "price" in
  let* open := raw_field res0 "open" in
  let* high := raw_field res0 "dayHigh" in
  let* low := raw_field res0 "dayLow" in
  let* previousClose := raw_field res0 "previousClose" in
  let* timestamp := Py.get res0 "timestamp" VNone in
  Ok (VDict (b ++ [("price", VFloat price);
                   ("changePercent", VFloat Float.zero);
                   ("open", open);
                   ("high", high);
                   ("low", low);
                   ("previousClose", previousClose);
                   ("timestamp", Py.or_ timestamp VNone)])).

(** The body of the [try] block: [Ok (Some r)] when a provider branch
    returns [r], [Ok None] when no branch is taken, [Err e] when a branch
    raises [e]. *)
Definition normalize_quote_try (symbol provider : string) (raw : value)
  : result (option value) :=
  let b := base symbol provider in
  if String.eqb provider "alpha_vantage" then
    let* r := alpha_vantage_quote b raw in Ok (Some r)
  else if String.eqb provider "finnhub" then
    let* r := finnhub_quote b raw in Ok (Some r)
  else if String.eqb provider "twelve" then
    let* r := twelve_quote b raw in Ok (Some r)
  else if String.eqb provider "polygon" then
    let* r := polygon_quote b raw in Ok (Some r)
  else if String.eqb provider "fmp" then
    let* r := fmp_quote b raw in Ok (Some r)
  else Ok None.

(** Whether [except Exception] handles the exception: every class of [exn]
    derives from [Exception]. *)
Definition is_Exception (e : exn) : bool :=
  match e with
  | Builtin _ _ | HTTPException _ _ | HTTPError _ _ | RequestException _ => true
  end.

Definition normalize_quote (symbol provider : string) (raw : value)
  : result value :=
  let symbol := Str.upper symbol in
  match normalize_quote_try symbol provider raw with
  | Ok (Some r) => Ok r
  | Ok None => Ok (fallback symbol provider)
  | Err e =>
      if is_Exception e then Ok (fallback symbol provider) else Err e
  end.

(** ** Quote fetcher and batch endpoint *)

(** An outbound call [requests.get(url, params=params, timeout=15)]. *)
Record request : Type := mkRequest {
  url : string;
  params : list (string * string)
}.

(** [Response.ok], which is also the truth value of a response:
    false exactly when [raise_for_status] raises. *)
Definition response_ok (r : response) : bool :=
  negb ((400 <=? status_code r) && (status_code r <? 600)).

Definition raise_for_status (r : response) : result unit :=
  if response_ok r then Ok tt else Err (HTTPError r (error_text r)).

(** [r.json()] *)
Definition json (r : response) : result value :=
  match body r with
  | inl msg => Err (RequestException msg)
  | inr v => Ok v
  end.

(** A computation that reaches the network returns its result together with
    the requests it has issued, oldest first. *)
Definition traced (A : Type) : Type := (result A * list request)%type.

Section Facade.

(** The process environment ([os.getenv]) and the network: what an outbound
    call answers, [inl msg] for a call that raises before any answer. *)
Variable getenv : string -> option string.
Variable http_get : request -> string + response.

(** Whether the route decorator leaves a [__wrapped__] attribute on the
    handler it registers.  The decorator belongs to the web framework. *)
Variable handler_has_wrapped : bool.

Definition _get_env (name : string) : option string := getenv name.

(** The four lines every provider branch ends with:
    [r = requests.get(...); r.raise_for_status(); data = r.json();
     return normalize_quote(symbol, provider, data)]. *)
Definition fetch_quote (symbol provider : string) (rq : request)
  : traced value :=
  (match http_get rq with
   | inl msg => Err (RequestException msg)
   | inr r =>
       let* _ := raise_for_status r in
       let* data := json r in
       normalize_quote symbol provider data
   end, [rq]).

Definition not_set (name : string) : traced value :=
  (Err (HTTPException 400 (name ++ " not set")), []).

(** The body of the [try] block of [get_quote]; [symbol] is upper-cased and
    [provider] lower-cased already.  [if not key] holds for an unset
    variable and for an empty one. *)
Definition get_quote_try (symbol provider : string) : traced value :=
  if String.eqb provider "alpha_vantage" then
    match _get_env "ALPHA_VANTAGE_API_KEY" with
    | Some key =>
        if Str.is_empty key then not_set "ALPHA_VANTAGE_API_KEY"
        else fetch_quote symbol provider
               (mkRequest "https://www.alphavantage.co/query"
                  [("function", "GLOBAL_QUOTE"); ("symbol", symbol);
                   ("apikey", key)])
    | None => not_set "ALPHA_VANTAGE_API_KEY"
    end
  else if String.eqb provider "finnhub" then
    match _get_env "FINNHUB_API_KEY" with
    | Some key =>
        if Str.is_empty key then not_set "FINNHUB_API_KEY"
        else fetch_quote symbol provider
               (mkRequest "https://finnhub.io/api/v1/quote"
                  [("symbol", symbol); ("token", key)])
    | None => not_set "FINNHUB_API_KEY"
    end
  else if String.eqb provider "twelve" then
    match _get_env "TWELVE_DATA_API_KEY" with
    | Some key =>
        if Str.is_empty key then not_set "TWELVE_DATA_API_KEY"
        else fetch_quote symbol provider
               (mkRequest "https://api.twelvedata.com/quote"
                  [("symbol", symbol); ("apikey", key)])
    | None => not_set "TWELVE_DATA_API_KEY"
    end
  else if String.eqb provider "polygon" then
    match _get_env "POLYGON_API_KEY" with
    | Some key =>
        if Str.is_empty key then not_set "POLYGON_API_KEY"
        else fetch_quote symbol provider
               (mkRequest
                  ("https://api.polygon.io/v2/aggs/ticker/" ++ symbol ++ "/prev")
                  [("adjusted", "true"); ("apiKey", key)])
    | None => not_set "POLYGON_API_KEY"
    end
  else if String.eqb provider "fmp" then
    match _get_env "FMP_API_KEY" with
    | Some key =>
        if Str.is_empty key then not_set "FMP_API_KEY"
        else fetch_quote symbol provider
               (mkRequest
                  ("https://financialmodelingprep.com/api/v3/quote-short/"
                   ++ symbol)
                  [("apikey", key)])
    | None => not_set "FMP_API_KEY"
    end
  else (Err (HTTPException 400 "Unsupported provider"), []).

(** The three handlers of [get_quote], in order: [HTTPException] is raised
    again, [requests.HTTPError] and every other [Exception] become an
    [HTTPException]. *)
Definition get_quote_handle (e : exn) : exn :=
  match e with
  | HTTPException status detail => HTTPException status detail
  | HTTPError resp msg =>
      HTTPException (if response_ok resp then status_code resp else 502) msg
  | _ => HTTPException 500 (str_exn e)
  end.

Definition get_quote (symbol provider : string) : traced value :=
  let provider := Str.lower provider in
  let symbol := Str.upper symbol in
  match get_quote_try symbol provider with
  | (Ok quote, trace) => (Ok quote, trace)
  | (Err e, trace) => (Err (get_quote_handle e), trace)
  end.

(** [get_quote.__wrapped__(s, provider)]: the attribute is looked up first. *)
Definition call_wrapped (s provider : string) : traced value :=
  if handler_has_wrapped then get_quote s provider
  else (raise AttributeError
          "'function' object has no attribute '__wrapped__'", []).

(** [[s.strip().upper() for s in symbols.split(",") if s.strip()]] *)
Definition parse_symbols (symbols : string) : list string :=
  map (fun s => Str.upper (Str.strip s))
      (filter (fun s => negb (Str.is_empty (Str.strip s)))
              (Str.split "," symbols)).

Definition error_record (s provider error : string) : value :=
  VDict [("symbol", VStr s); ("provider", VStr provider);
         ("error", VStr error)].

(** One turn of the loop of [get_tickers]: the call, its two handlers, and
    [out.append]. *)
Definition tickers_step (provider : string)
  (acc : list value * list request) (s : string)
  : list value * list request :=
  let '(out, trace) := acc in
  match call_wrapped s provider with
  | (Ok quote, t) => (out ++ [quote], trace ++ t)%list
  | (Err (HTTPException _ detail), t) =>
      (out ++ [error_record s provider detail], trace ++ t)%list
  | (Err e, t) =>
      (out ++ [error_record s provider (str_exn e)], trace ++ t)%list
  end.

Definition get_tickers (symbols provider : string)
  : value * list request :=
  let syms := parse_symbols symbols in
  let '(out, trace) := fold_left (tickers_step provider) syms ([], []) in
  (VDict [("data", VList out)], trace).

(** What one symbol contributes to the batch, on its own: the quote, or the
    error record built by the handler that catches its exception. *)
Definition quote_result (provider s : string) : value :=
  match fst (call_wrapped s provider) with
  | Ok quote => quote
  | Err (HTTPException _ detail) => error_record s provider detail
  | Err e => error_record s provider (str_exn e)
  end.

(** The requests one symbol issues, on its own. *)
Definition quote_requests (provider s : string) : list request :=
  snd (call_wrapped s provider).

End Facade.

(** ** Database probe *)

(** The object [db] exported by the [database] module, as far as
    [test_database] looks at it: [db.name] ([None] when [hasattr(db, "name")]
    is false) and what [db.list_collection_names()] does ([inl msg] when it
    raises an exception whose text is [msg]). *)
Record database : Type := mkDatabase {
  db_name : option value;
  list_collection_names : string + list value
}.

(** What [from database import db] does: it raises [ImportError], it raises
    another exception, or it binds [db], which may be [None]. *)
Inductive import_outcome : Type :=
| ImportFails (msg : string)
| ImportRaises (msg : string)
| Imported (db : option database).

(** [d[key] = v] on a dict: an existing key keeps its place. *)
Fixpoint set_item (entries : list (string * value)) (key : string) (v : value)
  : list (string * value) :=
  match entries with
  | [] => [(key, v)]
  | (k, x) :: rest =>
      if String.eqb k key then (k, v) :: rest
      else (k, x) :: set_item rest key v
  end.

Section Probe.

Variable getenv : string -> option string.
Variable database_import : import_outcome.

(** Truth value of [os.getenv(name)]. *)
Definition env_set (name : string) : bool :=
  match getenv name with
  | Some v => negb (Str.is_empty v)
  | None => false
  end.

(** The [try] block of [test_database] with its two handlers. *)
Definition probe_database (response : list (string * value))
  : list (string * value) :=
  match database_import with
  | Imported (Some db) =>
      let response := set_item response "database" (VStr "✅ Available") in
      let response :=
        set_item response "database_url" (VStr "✅ Configured") in
      let response :=
        set_item response "database_name"
          (match db_name db with
           | Some n => n
           | None => VStr "✅ Connected"
           end) in
      let response :=
        set_item response "connection_status" (VStr "Connected") in
      match list_collection_names db with
      | inr collections =>
          let response :=
            set_item response "collections"
              (VList (firstn 10 collections)) in
          set_item response "database" (VStr "✅ Connected & Working")
      | inl msg =>
          set_item response "database"
            (VStr ("⚠️  Connected but Error: " ++ substring 0 50 msg))
      end
  | Imported None =>
      set_item response "database"
        (VStr "⚠️  Available but not initialized")
  | ImportFails _ =>
      set_item response "database"
        (VStr "❌ Database module not found (run enable-database first)")
  | ImportRaises msg =>
      set_item response "database"
        (VStr ("❌ Error: " ++ substring 0 50 msg))
  end.

Definition test_database : value :=
  let response :=
    [("backend", VStr "✅ Running");
     ("database", VStr "❌ Not Available");
     ("database_url", VNone);
     ("database_name", VNone);
     ("connection_status", VStr "Not Connected");
     ("collections", VList [])] in
  let response := probe_database response in
  let response :=
    set_item response "database_url"
      (VStr (if env_set "DATABASE_URL" then "✅ Set" else "❌ Not Set")) in
  let response :=
    set_item response "database_name"
      (VStr (if env_set "DATABASE_NAME" then "✅ Set" else "❌ Not Set")) in
  VDict response.

End Probe.

(** ** Vocabulary of the properties *)

(** [r[key]] for a returned record, [None] when the key is absent. *)
Definition field (r : value) (key : string) : option value :=
  match r with
  | VDict entries => Py.lookup entries key
  | _ => None
  end.

Definition is_float_field (r : value) (key : string) : Prop :=
  exists x, field r key = Some (VFloat x).

(** The numeric fields of a canonical quote. *)
Definition numeric_fields : list string :=
  ["price"; "changePercent"; "open"; "high"; "low"; "previousClose"].

(** Every record a provider branch builds. *)
Definition built (b : list (string * value))
  (price changePercent open high low previousClose timestamp : value)
  : value :=
  VDict (b ++ [("price", price); ("changePercent", changePercent);
               ("open", open); ("high", high); ("low", low);
               ("previousClose", previousClose); ("timestamp", timestamp)]).

(** [normalize_quote] returns the fallback record. *)
Definition falls_back (symbol provider : string) (raw : value) : Prop :=
  normalize_quote symbol provider raw
  = Ok (fallback (Str.upper symbol) provider).

(** The binary64 float nearest to 1.23, [0x1.3ae147ae147aep+0]. *)
Definition float_1_23 : Float.t := S754_finite false 5539427541665710 (-52).

(** The environment variable each provider branch of [get_quote] reads. *)
Definition credential_var (provider : string) : option string :=
  if String.eqb provider "alpha_vantage" then Some "ALPHA_VANTAGE_API_KEY"
  else if String.eqb provider "finnhub" then Some "FINNHUB_API_KEY"
  else if String.eqb provider "twelve" then Some "TWELVE_DATA_API_KEY"
  else if String.eqb provider "polygon" then Some "POLYGON_API_KEY"
  else if String.eqb provider "fmp" then Some "FMP_API_KEY"
  else None.

(** A process environment holding only a finnhub key, and a network that
    answers 404 for TSLA and an empty quote for every other symbol. *)
Definition sample_env (name : string) : option string :=
  if String.eqb name "FINNHUB_API_KEY" then Some "k" else None.

Definition sample_net (rq : request) : string + response :=
  match params rq with
  | ("symbol", "TSLA") :: _ =>
      inr (mkResponse 404 "404 Client Error: Not Found" (inl "no body"))
  | _ => inr (mkResponse 200 "" (inr (VDict [])))
  end.

(** Further sample worlds: every variable set but empty, a network that is
    down, and a network that answers 200 with a body that is not JSON. *)
Definition empty_env (name : string) : option string := Some "".

Definition down_net (rq : request) : string + response :=
  inl "Connection refused".

Definition html_net (rq : request) : string + response :=
  inr (mkResponse 200 "" (inl "Expecting value: line 1 column 1 (char 0)")).

(** A string that is empty or starts with a character outside [p]. *)
Definition starts_clean (p : ascii -> bool) (s : string) : Prop :=
  match s with
  | EmptyString => True
  | String c _ => p c = false
  end.

(** A float as [float(x or 0)] returns it: a zero of either sign becomes
    0.0, every other float is kept. *)
Definition drop_zero_sign (x : Float.t) : Float.t :=
  if Float.eqb x Float.zero then Float.zero else x.

(** [d.get(key)] on the entries of a dict. *)
Definition get_or_none (entries : list (string * value)) (key : string)
  : value :=
  match Py.lookup entries key with
  | Some v => v
  | None => VNone
  end.

(** Sample payloads of finnhub and twelve. *)
Definition sample_finnhub : list (string * value) :=
  [("c", VFloat (Float.of_Z 150)); ("d", VFloat (Float.of_Z 1));
   ("dp", VFloat Float.neg_zero); ("h", VFloat (Float.of_Z 152));
   ("l", VFloat (Float.of_Z 148)); ("o", VFloat (Float.of_Z 149));
   ("pc", VFloat (Float.of_Z 150)); ("t", VInt 1700000000)].

Definition sample_twelve : list (string * value) :=
  [("symbol", VStr "MSFT"); ("open", VStr "2.5"); ("high", VStr "4");
   ("low", VStr "2"); ("price", VStr "3.5"); ("previous_close", VStr "3");
   ("percent_change", VStr "-0.5"); ("timestamp", VInt 1700000000)].

(** * Properties *)

(** ** Strings *)

Lemma upper_char_idem (c : ascii) :
  Str.upper_char (Str.upper_char c) = Str.upper_char c.
Proof. destruct c as [[] [] [] [] [] [] [] []]; reflexivity. Qed.

Lemma upper_idem (s : string) : Str.upper (Str.upper s) = Str.upper s.
Proof.
  unfold Str.upper.
  induction s as [|c r IH]; simpl; [reflexivity|].
  now rewrite upper_char_idem, IH.
Qed.

(** ** The result monad *)

Lemma bind_Ok {A B : Type} (m : result A) (k : A -> result B) (b : B) :
  bind m k = Ok b -> exists a, m = Ok a /\ k a = Ok b.
Proof. destruct m as [a|e]; simpl; [eauto | discriminate]. Qed.

(** Peel the successful prefix of a chain of binds. *)
Ltac bind_inv H :=
  repeat match type of H with
  | bind _ _ = Ok _ =>
      let a := fresh "a" in
      let Ha := fresh "Ha" in
      apply bind_Ok in H; destruct H as (a & Ha & H)
  end.

(** ** The fallback record and the handler of [normalize_quote] *)

Lemma normalize_quote_cases (symbol provider : string) (raw : value) :
  (exists r, normalize_quote_try (Str.upper symbol) provider raw = Ok (Some r)
             /\ normalize_quote symbol provider raw = Ok r)
  \/ ((normalize_quote_try (Str.upper symbol) provider raw = Ok None
       \/ exists e, normalize_quote_try (Str.upper symbol) provider raw = Err e)
      /\ normalize_quote symbol provider raw
         = Ok (fallback (Str.upper symbol) provider)).
Proof.
  unfold normalize_quote.
  destruct (normalize_quote_try (Str.upper symbol) provider raw)
    as [[r|]|e] eqn:E.
  - left; eauto.
  - right; split; [now left | reflexivity].
  - right; split; [right; eauto | now destruct e].
Qed.

(** Which branch of the [try] block is taken. *)
Lemma normalize_quote_try_branch (s p : string) (raw : value) (r : value) :
  normalize_quote_try s p raw = Ok (Some r) ->
  (p = "alpha_vantage" /\ alpha_vantage_quote (base s p) raw = Ok r)
  \/ (p = "finnhub" /\ finnhub_quote (base s p) raw = Ok r)
  \/ (p = "twelve" /\ twelve_quote (base s p) raw = Ok r)
  \/ (p = "polygon" /\ polygon_quote (base s p) raw = Ok r)
  \/ (p = "fmp" /\ fmp_quote (base s p) raw = Ok r).
Proof.
  unfold normalize_quote_try.
  repeat match goal with
  | |- context [String.eqb p ?c] =>
      destruct (String.eqb_spec p c) as [->|_]
  end; intros H; try discriminate;
  apply bind_Ok in H; destruct H as (r' & Hr & H); injection H as <-; tauto.
Qed.

Lemma alpha_vantage_quote_shape b raw r :
  alpha_vantage_quote b raw = Ok r ->
  exists pr cp o h l pc ts,
    r = built b (VFloat pr) (VFloat cp) (VFloat o) (VFloat h) (VFloat l)
          (VFloat pc) ts.
Proof.
  unfold alpha_vantage_quote; intros H; bind_inv H.
  injection H as <-; repeat eexists.
Qed.

Lemma finnhub_quote_shape b raw r :
  finnhub_quote b raw = Ok r ->
  exists pr cp o h l pc ts,
    r = built b (VFloat pr) (VFloat cp) (VFloat o) (VFloat h) (VFloat l)
          (VFloat pc) ts.
Proof.
  unfold finnhub_quote; intros H; bind_inv H.
  injection H as <-; repeat eexists.
Qed.

Lemma twelve_quote_shape b raw r :
  twelve_quote b raw = Ok r ->
  exists pr cp o h l pc ts,
    r = built b (VFloat pr) (VFloat cp) (VFloat o) (VFloat h) (VFloat l)
          (VFloat pc) ts.
Proof.
  unfold twelve_quote; intros H; bind_inv H.
  injection H as <-; repeat eexists.
Qed.

Lemma polygon_quote_shape b raw r :
  polygon_quote b raw = Ok r ->
  exists close cp o h l ts,
    polygon_change close close = Ok cp
    /\ r = built b (VFloat close) (VFloat cp) (VFloat o) (VFloat h) (VFloat l)
             (VFloat close) ts.
Proof.
  unfold polygon_quote; intros H; bind_inv H.
  injection H as <-.
  assert (a5 = a1) by congruence; subst a5.
  repeat eexists; eassumption.
Qed.

Lemma fmp_quote_shape b raw r :
  fmp_quote b raw = Ok r ->
  exists pr o h l pc ts,
    r = built b (VFloat pr) (VFloat Float.zero) o h l pc ts.
Proof.
  unfold fmp_quote; intros H; bind_inv H.
  injection H as <-; repeat eexists.
Qed.

(** Every record returned starts with the two entries of [base]. *)
Lemma normalize_quote_record (symbol provider : string) (raw : value) :
  exists rest,
    normalize_quote symbol provider raw
    = Ok (VDict (base (Str.upper symbol) provider ++ rest)).
Proof.
  destruct (normalize_quote_cases symbol provider raw)
    as [(r & Hr & H)|[_ H]]; [|rewrite H; eexists; reflexivity].
  rewrite H; apply normalize_quote_try_branch in Hr.
  destruct Hr as [[_ Hq]|[[_ Hq]|[[_ Hq]|[[_ Hq]|[_ Hq]]]]].
  - apply alpha_vantage_quote_shape in Hq.
    destruct Hq as (pr & cp & o & h & l & pc & ts & ->).
    eexists; reflexivity.
  - apply finnhub_quote_shape in Hq.
    destruct Hq as (pr & cp & o & h & l & pc & ts & ->).
    eexists; reflexivity.
  - apply twelve_quote_shape in Hq.
    destruct Hq as (pr & cp & o & h & l & pc & ts & ->).
    eexists; reflexivity.
  - apply polygon_quote_shape in Hq.
    destruct Hq as (pr & cp & o & h & l & ts & _ & ->).
    eexists; reflexivity.
  - apply fmp_quote_shape in Hq.
    destruct Hq as (pr & o & h & l & pc & ts & ->).
    eexists; reflexivity.
Qed.

(** ** Float arithmetic behind the polygon branch *)

Lemma sub_self_finite (s : bool) (m : positive) (e : Z) :
  Float.sub (S754_finite s m e) (S754_finite s m e) = S754_zero false.
Proof.
  unfold Float.sub, SFsub.
  now rewrite Z.sub_diag.
Qed.

(** [x == 0] holds exactly for the two zeros. *)
Lemma eqb_zero_iff (x : Float.t) :
  Float.eqb x Float.zero = true <-> exists s, x = S754_zero s.
Proof.
  split.
  - destruct x as [s|[]| |[] m e]; simpl; try discriminate; eauto.
  - intros [s ->]; reflexivity.
Qed.

(** The guard and the quotient of [polygon_change] when close and previous
    close are the same float. *)
Lemma polygon_change_same (x : Float.t) :
  exists cp, polygon_change x x = Ok cp
    /\ (Float.is_finite x = true -> exists s, cp = S754_zero s)
    /\ (Float.is_finite x = false -> cp = Float.nan).
Proof.
  destruct x as [s|s| |s m e].
  - exists Float.zero.
    split; [reflexivity | split; [intros _; now exists false | discriminate]].
  - exists Float.nan.
    split; [now destruct s | split; [discriminate | reflexivity]].
  - exists Float.nan.
    split; [reflexivity | split; [discriminate | reflexivity]].
  - exists (S754_zero s).
    unfold polygon_change, Py.truediv.
    replace (Float.eqb (S754_finite s m e) (Float.of_Z 0)) with false
      by now destruct s.
    replace (Float.eqb (S754_finite s m e) Float.zero) with false
      by now destruct s.
    rewrite sub_self_finite.
    split; [now destruct s | split; [intros _; now exists s | discriminate]].
Qed.

Lemma polygon_change_guard (close prev : Float.t) :
  Float.eqb prev Float.zero = true -> polygon_change close prev = Ok Float.zero.
Proof.
  unfold polygon_change; intros H.
  change (Float.of_Z 0) with Float.zero; now rewrite H.
Qed.

Lemma polygon_change_no_zero_division (close prev : Float.t) (msg : string) :
  polygon_change close prev <> Err (Builtin ZeroDivisionError msg).
Proof.
  unfold polygon_change, Py.truediv.
  change (Float.of_Z 0) with Float.zero.
  destruct (Float.eqb prev Float.zero); simpl; discriminate.
Qed.

(** ** The normalizer *)

(** C1.  [normalize_quote] returns a record for every symbol, provider and
    payload: it never raises.  Whenever a provider branch raises, the
    record returned is the fallback [{symbol, provider, price: 0.0,
    changePercent: 0.0}], and normalizing the empty object [{}] gives price
    0.0 and changePercent 0.0 for every provider. *)
Theorem normalize_quote_never_raises (symbol provider : string) (raw : value) :
  (exists r, normalize_quote symbol provider raw = Ok r)
  /\ (forall e,
        normalize_quote_try (Str.upper symbol) provider raw = Err e ->
        normalize_quote symbol provider raw
        = Ok (VDict [("symbol", VStr (Str.upper symbol));
                     ("provider", VStr provider);
                     ("price", VFloat Float.zero);
                     ("changePercent", VFloat Float.zero)]))
  /\ (exists r, normalize_quote symbol provider (VDict []) = Ok r
        /\ field r "price" = Some (VFloat Float.zero)
        /\ field r "changePercent" = Some (VFloat Float.zero)).
Proof.
  split; [|split].
  - destruct (normalize_quote_cases symbol provider raw)
      as [(r & _ & H)|[_ H]]; eauto.
  - intros e He.
    destruct (normalize_quote_cases symbol provider raw)
      as [(r & Hr & _)|[_ H]]; [congruence | exact H].
  - unfold normalize_quote, normalize_quote_try.
    repeat match goal with
    | |- context [String.eqb provider ?c] =>
        destruct (String.eqb_spec provider c) as [->|_]
    end;
    (eexists; split; [reflexivity | split; reflexivity]).
Qed.

Lemma normalize_quote_never_raises_witness :
  normalize_quote "tsla" "finnhub" (VList [VInt 1])
  = Ok (VDict [("symbol", VStr "TSLA"); ("provider", VStr "finnhub");
               ("price", VFloat Float.zero);
               ("changePercent", VFloat Float.zero)]).
Proof.
  exact (proj1 (proj2 (normalize_quote_never_raises "tsla" "finnhub"
                         (VList [VInt 1])))
           (Builtin AttributeError "object has no attribute 'get'") eq_refl).
Defined.

(** C2, as the claim states it, fails: a payload whose price does not parse
    gives the fallback record, in which [open], [high], [low] and
    [previousClose] are absent. *)
Lemma numeric_fields_not_always_populated :
  ~ (forall symbol provider raw,
       exists r, normalize_quote symbol provider raw = Ok r
         /\ field r "symbol" = Some (VStr (Str.upper symbol))
         /\ field r "provider" = Some (VStr provider)
         /\ forall key, In key numeric_fields -> is_float_field r key).
Proof.
  intros H.
  destruct (H "tsla" "finnhub" (VDict [("c", VStr "n/a")]))
    as (r & Hr & _ & _ & Hnum).
  vm_compute in Hr; injection Hr as <-.
  destruct (Hnum "open") as [x Hx]; [simpl; tauto | discriminate].
Qed.

(** The five leading conjuncts of the invariant, on a record given by its
    entries. *)
Ltac record_head :=
  split; [reflexivity|];
  split; [apply upper_idem|];
  split; [reflexivity|];
  split; [eexists; reflexivity|];
  split; [eexists; reflexivity|].

(** C2, amended.  Every record returned by [normalize_quote] has [symbol]
    present and upper-cased, [provider] equal to the requested identifier,
    and [price] and [changePercent] present as floats.  The record is
    either the fallback record, which has no other numeric field, or built
    by the fmp branch, or built by one of the four other branches, and then
    [open], [high], [low] and [previousClose] are floats too.  For those
    four providers the empty object gives 0.0 in all six numeric fields. *)
Theorem normalize_quote_invariants (symbol provider : string) (raw : value) :
  (exists r, normalize_quote symbol provider raw = Ok r
     /\ field r "symbol" = Some (VStr (Str.upper symbol))
     /\ Str.upper (Str.upper symbol) = Str.upper symbol
     /\ field r "provider" = Some (VStr provider)
     /\ is_float_field r "price"
     /\ is_float_field r "changePercent"
     /\ ((r = fallback (Str.upper symbol) provider
          /\ field r "open" = None /\ field r "high" = None
          /\ field r "low" = None /\ field r "previousClose" = None)
         \/ provider = "fmp"
         \/ (is_float_field r "open" /\ is_float_field r "high"
             /\ is_float_field r "low" /\ is_float_field r "previousClose")))
  /\ (In provider ["alpha_vantage"; "finnhub"; "twelve"; "polygon"] ->
      exists r, normalize_quote symbol provider (VDict []) = Ok r
        /\ forall key, In key numeric_fields ->
             field r key = Some (VFloat Float.zero)).
Proof.
  split.
  - destruct (normalize_quote_cases symbol provider raw)
      as [(r & Hr & H)|[_ H]].
    + exists r; split; [exact H|].
      unfold is_float_field.
      apply normalize_quote_try_branch in Hr.
      destruct Hr as [[-> Hq]|[[-> Hq]|[[-> Hq]|[[-> Hq]|[-> Hq]]]]].
      * apply alpha_vantage_quote_shape in Hq.
        destruct Hq as (pr & cp & o & h & l & pc & ts & ->).
        record_head.
        right; right; repeat split; eexists; reflexivity.
      * apply finnhub_quote_shape in Hq.
        destruct Hq as (pr & cp & o & h & l & pc & ts & ->).
        record_head.
        right; right; repeat split; eexists; reflexivity.
      * apply twelve_quote_shape in Hq.
        destruct Hq as (pr & cp & o & h & l & pc & ts & ->).
        record_head.
        right; right; repeat split; eexists; reflexivity.
      * apply polygon_quote_shape in Hq.
        destruct Hq as (pr & cp & o & h & l & ts & _ & ->).
        record_head.
        right; right; repeat split; eexists; reflexivity.
      * apply fmp_quote_shape in Hq.
        destruct Hq as (pr & o & h & l & pc & ts & ->).
        record_head.
        right; left; reflexivity.
    + exists (fallback (Str.upper symbol) provider); split; [exact H|].
      unfold is_float_field.
      record_head.
      left; repeat split.
  - simpl; intros [<-|[<-|[<-|[<-|[]]]]];
      (eexists; split; [reflexivity|]);
      intros key [<-|[<-|[<-|[<-|[<-|[<-|[]]]]]]]; reflexivity.
Qed.

Lemma normalize_quote_invariants_witness :
  exists r, normalize_quote "tsla" "twelve" (VDict []) = Ok r
    /\ forall key, In key numeric_fields ->
         field r key = Some (VFloat Float.zero).
Proof.
  apply (proj2 (normalize_quote_invariants "tsla" "twelve" VNone)).
  simpl; tauto.
Defined.

(** C6.  For the fmp provider [changePercent] is 0.0 for every payload. *)
Theorem fmp_change_percent_zero (symbol : string) (raw : value) :
  exists r, normalize_quote symbol "fmp" raw = Ok r
    /\ field r "changePercent" = Some (VFloat Float.zero).
Proof.
  destruct (normalize_quote_cases symbol "fmp" raw) as [(r & Hr & H)|[_ H]].
  - exists r; split; [exact H|].
    apply normalize_quote_try_branch in Hr.
    destruct Hr as [[E _]|[[E _]|[[E _]|[[E _]|[_ Hq]]]]]; try discriminate E.
    apply fmp_quote_shape in Hq.
    destruct Hq as (pr & o & h & l & pc & ts & ->); reflexivity.
  - eexists; split; [exact H | reflexivity].
Qed.

(** ** The polygon branch *)

(** What [normalize_quote] returns for polygon: the fallback record, or a
    record whose price and previous close are one float [close] and whose
    changePercent is [polygon_change close close]. *)
Lemma polygon_record (symbol : string) (raw : value) :
  exists r, normalize_quote symbol "polygon" raw = Ok r
    /\ (r = fallback (Str.upper symbol) "polygon"
        \/ exists close cp,
             polygon_change close close = Ok cp
             /\ field r "price" = Some (VFloat close)
             /\ field r "previousClose" = Some (VFloat close)
             /\ field r "changePercent" = Some (VFloat cp)).
Proof.
  destruct (normalize_quote_cases symbol "polygon" raw)
    as [(r & Hr & H)|[_ H]].
  - exists r; split; [exact H|]; right.
    apply normalize_quote_try_branch in Hr.
    destruct Hr as [[E _]|[[E _]|[[E _]|[[_ Hq]|[E _]]]]]; try discriminate E.
    apply polygon_quote_shape in Hq.
    destruct Hq as (close & cp & o & h & l & ts & Hcp & ->).
    exists close, cp; repeat split; assumption.
  - eexists; split; [exact H | now left].
Qed.

(** C3, as the claim states it, fails: a close that is an infinity (the JSON
    number [1e999] decodes to one) passes the guard, and
    [(inf - inf) / inf * 100] is NaN, which is not equal to 0.0. *)
Lemma polygon_change_percent_not_always_zero :
  ~ (forall symbol raw,
       exists r x, normalize_quote symbol "polygon" raw = Ok r
         /\ field r "changePercent" = Some (VFloat x)
         /\ Float.eqb x Float.zero = true).
Proof.
  intros H.
  destruct (H "TSLA"
              (VDict [("results", VList [VDict [("c", VFloat Float.inf)]])]))
    as (r & x & Hr & Hx & Hz).
  vm_compute in Hr; injection Hr as <-.
  vm_compute in Hx; injection Hx as <-.
  discriminate Hz.
Qed.

(** The fields the polygon branch parses, read off the payload: the first
    result and the floats of its keys c, o, h and l. *)
Lemma polygon_quote_inv b raw r :
  polygon_quote b raw = Ok r ->
  exists results res0 close o h l cp ts,
    Py.get raw "results" VNone = Ok results
    /\ Py.item0 (Py.or_ results (VList [VDict []])) = Ok res0
    /\ float_field res0 "c" = Ok close
    /\ float_field res0 "o" = Ok o
    /\ float_field res0 "h" = Ok h
    /\ float_field res0 "l" = Ok l
    /\ polygon_change close close = Ok cp
    /\ r = built b (VFloat close) (VFloat cp) (VFloat o) (VFloat h) (VFloat l)
             (VFloat close) ts.
Proof.
  unfold polygon_quote; intros H; bind_inv H.
  injection H as <-.
  assert (a5 = a1) by congruence; subst a5.
  exists a, a0, a1, a2, a3, a4, a6, a7; repeat split; assumption.
Qed.

Lemma polygon_quote_ok b raw results res0 close o h l cp :
  Py.get raw "results" VNone = Ok results ->
  Py.item0 (Py.or_ results (VList [VDict []])) = Ok res0 ->
  float_field res0 "c" = Ok close ->
  float_field res0 "o" = Ok o ->
  float_field res0 "h" = Ok h ->
  float_field res0 "l" = Ok l ->
  polygon_change close close = Ok cp ->
  exists ts,
    polygon_quote b raw
    = Ok (built b (VFloat close) (VFloat cp) (VFloat o) (VFloat h) (VFloat l)
            (VFloat close) ts).
Proof.
  intros Hres H0 Hc Ho Hh Hl Hcp; unfold polygon_quote.
  rewrite Hres; simpl; rewrite H0; simpl.
  rewrite Hc; simpl; rewrite Ho; simpl; rewrite Hh; simpl; rewrite Hl; simpl.
  rewrite Hcp; simpl.
  destruct res0 as [| | | | | |entries];
    try (unfold float_field in Hc; simpl in Hc; discriminate Hc).
  eexists; reflexivity.
Qed.

(** C3, amended.  For the polygon provider the record always carries a
    float changePercent, which is a zero (0.0, or -0.0 for a negative
    close) or NaN.  It is NaN exactly for the payloads in which c, o, h and
    l of the first result all parse and c parses to an infinity or NaN; for
    every other payload it is a zero and compares equal to 0.0. *)
Theorem polygon_change_percent (symbol : string) (raw : value) :
  exists r cp,
    normalize_quote symbol "polygon" raw = Ok r
    /\ field r "changePercent" = Some (VFloat cp)
    /\ (cp = Float.nan \/ Float.eqb cp Float.zero = true)
    /\ (cp = Float.nan <->
        exists results res0 close o h l,
          Py.get raw "results" VNone = Ok results
          /\ Py.item0 (Py.or_ results (VList [VDict []])) = Ok res0
          /\ float_field res0 "c" = Ok close
          /\ float_field res0 "o" = Ok o
          /\ float_field res0 "h" = Ok h
          /\ float_field res0 "l" = Ok l
          /\ Float.is_finite close = false).
Proof.
  destruct (normalize_quote_cases symbol "polygon" raw)
    as [(r & Hr & H)|[Htry H]].
  - apply normalize_quote_try_branch in Hr.
    destruct Hr as [[E _]|[[E _]|[[E _]|[[_ Hq]|[E _]]]]]; try discriminate E.
    apply polygon_quote_inv in Hq.
    destruct Hq as (results & res0 & close & o & h & l & cp & ts
                    & Hres & H0 & Hc & Ho & Hh & Hl & Hcp & ->).
    exists (built (base (Str.upper symbol) "polygon") (VFloat close)
              (VFloat cp) (VFloat o) (VFloat h) (VFloat l) (VFloat close) ts),
      cp.
    destruct (polygon_change_same close) as (cp' & Hcp' & Hfin & Hnan).
    assert (cp' = cp) by congruence; subst cp'.
    split; [exact H|]; split; [reflexivity|].
    destruct (Float.is_finite close) eqn:Ef.
    + destruct (Hfin eq_refl) as [sg ->].
      split; [now right|]; split; [discriminate|].
      intros (results' & res0' & close' & o' & h' & l'
              & Hres' & H0' & Hc' & _ & _ & _ & Ef').
      assert (results' = results) by congruence; subst results'.
      assert (res0' = res0) by congruence; subst res0'.
      assert (close' = close) by congruence; subst close'.
      congruence.
    + rewrite (Hnan eq_refl).
      split; [now left|]; split; [intros _|reflexivity].
      exists results, res0, close, o, h, l; repeat split; assumption.
  - exists (fallback (Str.upper symbol) "polygon"), Float.zero.
    split; [exact H|]; split; [reflexivity|].
    split; [now right|]; split; [discriminate|].
    intros (results & res0 & close & o & h & l
            & Hres & H0 & Hc & Ho & Hh & Hl & Ef).
    destruct (polygon_change_same close) as (cp & Hcp & _).
    destruct (polygon_quote_ok (base (Str.upper symbol) "polygon") raw
                results res0 close o h l cp Hres H0 Hc Ho Hh Hl Hcp)
      as [ts Hq].
    exfalso.
    assert (Hok : normalize_quote_try (Str.upper symbol) "polygon" raw
                  = Ok (Some (built (base (Str.upper symbol) "polygon")
                                (VFloat close) (VFloat cp) (VFloat o)
                                (VFloat h) (VFloat l) (VFloat close) ts))).
    { unfold normalize_quote_try; simpl String.eqb; cbv iota.
      now rewrite Hq. }
    destruct Htry as [Hn|[e He]]; congruence.
Qed.

Lemma polygon_change_percent_witness :
  exists r,
    normalize_quote "tsla" "polygon"
      (VDict [("results",
               VList [VDict [("c", VStr "1e999"); ("o", VInt 3)]])]) = Ok r
    /\ field r "changePercent" = Some (VFloat Float.nan).
Proof.
  destruct (polygon_change_percent "tsla"
              (VDict [("results",
                       VList [VDict [("c", VStr "1e999"); ("o", VInt 3)]])]))
    as (r & cp & Hr & Hc & _ & Hiff).
  exists r; split; [exact Hr|].
  rewrite Hc; do 2 f_equal; apply Hiff.
  exists (VList [VDict [("c", VStr "1e999"); ("o", VInt 3)]]),
    (VDict [("c", VStr "1e999"); ("o", VInt 3)]),
    Float.inf, (Float.of_Z 3), Float.zero, Float.zero.
  repeat split; reflexivity.
Defined.

Lemma get_no_zero_division obj key default msg :
  Py.get obj key default <> Err (Builtin ZeroDivisionError msg).
Proof. destruct obj; discriminate. Qed.

Lemma item0_no_zero_division obj msg :
  Py.item0 obj <> Err (Builtin ZeroDivisionError msg).
Proof. destruct obj as [| | | |[|]|[|]|]; discriminate. Qed.

Lemma float_no_zero_division obj msg :
  Py.float obj <> Err (Builtin ZeroDivisionError msg).
Proof.
  destruct obj as [| |n| |s| |]; simpl; try discriminate.
  - destruct (Float.of_Z n); discriminate.
  - destruct (Float.of_string s); discriminate.
Qed.

Lemma float_field_no_zero_division obj key msg :
  float_field obj key <> Err (Builtin ZeroDivisionError msg).
Proof.
  unfold float_field.
  destruct (Py.get obj key VNone) eqn:E; simpl.
  - apply float_no_zero_division.
  - intros H; injection H as ->; revert E; apply get_no_zero_division.
Qed.

Lemma polygon_quote_no_zero_division b raw msg :
  polygon_quote b raw <> Err (Builtin ZeroDivisionError msg).
Proof.
  unfold polygon_quote.
  repeat match goal with
  | |- bind ?m _ <> _ =>
      let E := fresh "E" in
      destruct m eqn:E; simpl;
      [| intros Hd; injection Hd as ->; revert E;
         first [ apply get_no_zero_division
               | apply item0_no_zero_division
               | apply float_field_no_zero_division
               | apply polygon_change_no_zero_division ] ]
  end.
  discriminate.
Qed.

(** C5.  For the polygon provider, when the previous close of the record is
    equal to 0 the record's changePercent is exactly 0.0: the guard returns
    before the division, and the branch never raises ZeroDivisionError. *)
Theorem polygon_zero_previous_close (symbol : string) (raw : value) :
  (forall r prev,
     normalize_quote symbol "polygon" raw = Ok r ->
     field r "previousClose" = Some (VFloat prev) ->
     Float.eqb prev Float.zero = true ->
     field r "changePercent" = Some (VFloat Float.zero))
  /\ (forall msg,
        normalize_quote_try (Str.upper symbol) "polygon" raw
        <> Err (Builtin ZeroDivisionError msg)).
Proof.
  split.
  - intros r prev Hr Hprev Hz.
    destruct (polygon_record symbol raw) as (r' & Hr' & Hcase).
    assert (r' = r) by congruence; subst r'.
    destruct Hcase as [->|(close & cp & Hcp & _ & Hp & Hc)];
      [discriminate Hprev|].
    assert (close = prev) by congruence; subst close.
    rewrite (polygon_change_guard prev prev Hz) in Hcp.
    now injection Hcp as <-.
  - intros msg; unfold normalize_quote_try; simpl.
    pose proof (polygon_quote_no_zero_division
                  (base (Str.upper symbol) "polygon") raw msg) as Hq.
    destruct (polygon_quote _ raw); simpl; congruence.
Qed.

Lemma polygon_zero_previous_close_witness :
  exists r,
    normalize_quote "tsla" "polygon"
      (VDict [("results", VList [VDict [("c", VStr "-0.0")]])]) = Ok r
    /\ field r "previousClose" = Some (VFloat Float.neg_zero)
    /\ field r "changePercent" = Some (VFloat Float.zero).
Proof.
  eexists; split; [reflexivity | split; [reflexivity|]].
  eapply (proj1 (polygon_zero_previous_close "tsla"
                   (VDict [("results", VList [VDict [("c", VStr "-0.0")]])])));
    reflexivity.
Defined.

(** ** The alpha_vantage branch *)

Lemma alpha_vantage_quote_percent b raw r :
  alpha_vantage_quote b raw = Ok r ->
  exists gq pct stripped cp,
    Py.get raw "Global Quote" (VDict []) = Ok gq
    /\ Py.get gq "10. change percent" (VStr "0%") = Ok pct
    /\ Py.strip (Py.or_ pct (VStr "0")) "%" = Ok stripped
    /\ Py.float stripped = Ok cp
    /\ exists pr o h l pc ts,
         r = built b (VFloat pr) (VFloat cp) (VFloat o) (VFloat h) (VFloat l)
               (VFloat pc) ts.
Proof.
  unfold alpha_vantage_quote; intros H; bind_inv H.
  injection H as <-.
  exists a, a1, a2, a3; repeat split; try assumption.
  repeat eexists.
Qed.

(** C7.  For alpha_vantage the percent-change string is parsed after its
    ["%"] characters are stripped: a record that is not the fallback record
    carries [float(s.strip("%"))] as changePercent.  In particular
    ["1.23%"] strips to ["1.23"], which parses to the float nearest to 1.23,
    and that float is the changePercent of the record. *)
Theorem alpha_vantage_percent_stripped :
  (forall symbol raw gq s,
     Py.get raw "Global Quote" (VDict []) = Ok (VDict gq) ->
     Py.lookup gq "10. change percent" = Some (VStr s) ->
     s <> "" ->
     exists r, normalize_quote symbol "alpha_vantage" raw = Ok r
       /\ (r = fallback (Str.upper symbol) "alpha_vantage"
           \/ exists x, Float.of_string (Str.strip_chars "%" s) = Some x
                /\ field r "changePercent" = Some (VFloat x)))
  /\ Str.strip_chars "%" "1.23%" = "1.23"
  /\ Float.of_string "1.23" = Some float_1_23
  /\ Z.abs (100 * 5539427541665710 - 123 * 2 ^ 52) <= 50
  /\ (exists r,
        normalize_quote "tsla" "alpha_vantage"
          (VDict [("Global Quote",
                   VDict [("10. change percent", VStr "1.23%")])]) = Ok r
        /\ field r "changePercent" = Some (VFloat float_1_23)
        /\ field r "changePercent" <> Some (VStr "1.23%")).
Proof.
  split; [|split; [reflexivity|split; [reflexivity|split]]].
  - intros symbol raw gq s Hgq Hs Hne.
    destruct (normalize_quote_cases symbol "alpha_vantage" raw)
      as [(r & Hr & H)|[_ H]]; [|eauto].
    exists r; split; [exact H|]; right.
    apply normalize_quote_try_branch in Hr.
    destruct Hr as [[_ Hq]|[[E _]|[[E _]|[[E _]|[E _]]]]]; try discriminate E.
    apply alpha_vantage_quote_percent in Hq.
    destruct Hq as (gq' & pct & stripped & cp & Hg & Hp & Hst & Hf
                    & pr & o & h & l & pc & ts & ->).
    rewrite Hgq in Hg; injection Hg as <-.
    simpl in Hp; rewrite Hs in Hp; injection Hp as <-.
    assert (Ht : Py.or_ (VStr s) (VStr "0") = VStr s)
      by (destruct s; [contradiction|reflexivity]).
    rewrite Ht in Hst; simpl in Hst; injection Hst as <-.
    simpl in Hf.
    destruct (Float.of_string (Str.strip_chars "%" s)) as [x|];
      [|discriminate Hf].
    injection Hf as <-; exists x; split; reflexivity.
  - vm_compute; discriminate.
  - eexists; split; [reflexivity | split; [reflexivity | discriminate]].
Qed.

Lemma alpha_vantage_percent_stripped_witness :
  exists r,
    normalize_quote "ibm" "alpha_vantage"
      (VDict [("Global Quote",
               VDict [("05. price", VStr "12.5");
                      ("10. change percent", VStr "-0.5%")])]) = Ok r
    /\ (r = fallback "IBM" "alpha_vantage"
        \/ exists x, Float.of_string (Str.strip_chars "%" "-0.5%") = Some x
             /\ field r "changePercent" = Some (VFloat x)).
Proof.
  apply (proj1 alpha_vantage_percent_stripped "ibm" _
           [("05. price", VStr "12.5"); ("10. change percent", VStr "-0.5%")]
           "-0.5%"); [reflexivity | reflexivity | discriminate].
Defined.

(** ** The numeric coercion policy *)

Lemma try_err_falls_back symbol provider raw :
  (exists e, normalize_quote_try (Str.upper symbol) provider raw = Err e) ->
  falls_back symbol provider raw.
Proof.
  intros [e He]; unfold falls_back.
  destruct (normalize_quote_cases symbol provider raw)
    as [(r & Hr & _)|[_ H]]; [congruence | exact H].
Qed.

Lemma branch_err {A : Type} (m : result value) (k : value -> result A) :
  (exists e, m = Err e) -> exists e, bind m k = Err e.
Proof. intros [e ->]; exists e; reflexivity. Qed.








(** ** The fetcher *)

(** C9, as the claim states it, fails: ["FINNHUB"] is outside the set of the
    five identifiers, yet [get_quote] lower-cases it, calls the network and
    returns a quote. *)
Lemma unlisted_provider_accepted_after_lowercase :
  ~ (forall getenv http_get symbol provider,
       ~ In provider supported_providers ->
       fst (get_quote getenv http_get symbol provider)
       = Err (HTTPException 400 "Unsupported provider")).
Proof.
  intros H.
  assert (Hout : ~ In "FINNHUB" supported_providers).
  { simpl; intros [E|[E|[E|[E|[E|[]]]]]]; discriminate E. }
  specialize (H sample_env sample_net "aapl" "FINNHUB" Hout).
  vm_compute in H; discriminate H.
Qed.

Section FacadeProperties.

Variable getenv : string -> option string.
Variable http_get : request -> string + response.
Variable handler_has_wrapped : bool.

(** C9, amended.  A fetch whose provider, once lower-cased, is outside the
    set of the five identifiers raises HTTPException 400 "Unsupported
    provider"; a fetch whose lower-cased provider is supported and whose
    credential variable is unset raises HTTPException 400 naming the
    variable.  In both cases no request is issued. *)
Theorem get_quote_rejects_before_network (symbol provider : string) :
  (~ In (Str.lower provider) supported_providers ->
   get_quote getenv http_get symbol provider
   = (Err (HTTPException 400 "Unsupported provider"), []))
  /\ (forall var,
        credential_var (Str.lower provider) = Some var ->
        getenv var = None ->
        In (Str.lower provider) supported_providers
        /\ get_quote getenv http_get symbol provider
           = (Err (HTTPException 400 (var ++ " not set")), [])).
Proof.
  unfold get_quote, get_quote_try, credential_var, _get_env.
  generalize (Str.lower provider) as p; intros p.
  split.
  - intros Hout.
    repeat match goal with
    | |- context [String.eqb p ?c] =>
        destruct (String.eqb_spec p c) as [->|_];
        [exfalso; apply Hout; simpl; tauto|]
    end.
    reflexivity.
  - intros var.
    repeat match goal with
    | |- context [String.eqb p ?c] =>
        destruct (String.eqb_spec p c) as [->|_]
    end; intros Hvar; try discriminate Hvar;
    injection Hvar as <-; intros ->; (split; [simpl; tauto | reflexivity]).
Qed.

End FacadeProperties.

Lemma get_quote_rejects_before_network_witness :
  get_quote sample_env sample_net "tsla" "Yahoo"
  = (Err (HTTPException 400 "Unsupported provider"), [])
  /\ get_quote sample_env sample_net "tsla" "Polygon"
     = (Err (HTTPException 400 "POLYGON_API_KEY not set"), []).
Proof.
  split.
  - apply (proj1 (get_quote_rejects_before_network sample_env sample_net
                    "tsla" "Yahoo")).
    simpl; intros [E|[E|[E|[E|[E|[]]]]]]; discriminate E.
  - apply (proj2 (get_quote_rejects_before_network sample_env sample_net
                    "tsla" "Polygon") "POLYGON_API_KEY");
      reflexivity.
Defined.

(** ** The batch endpoint *)

Section BatchProperties.

Variable getenv : string -> option string.
Variable http_get : request -> string + response.
Variable handler_has_wrapped : bool.

Local Notation call := (call_wrapped getenv http_get handler_has_wrapped).
Local Notation tickers := (get_tickers getenv http_get handler_has_wrapped).
Local Notation quote_result :=
  (quote_result getenv http_get handler_has_wrapped).
Local Notation quote_requests :=
  (quote_requests getenv http_get handler_has_wrapped).

Lemma tickers_step_eq provider out trace s :
  tickers_step getenv http_get handler_has_wrapped provider (out, trace) s
  = ((out ++ [quote_result provider s])%list,
     (trace ++ quote_requests provider s)%list).
Proof.
  unfold tickers_step, quote_result, quote_requests.
  destruct (call s provider) as [[q|e] t]; simpl; [reflexivity|].
  now destruct e.
Qed.

Lemma tickers_fold provider syms : forall out trace,
  fold_left (tickers_step getenv http_get handler_has_wrapped provider)
    syms (out, trace)
  = ((out ++ map (quote_result provider) syms)%list,
     (trace ++ flat_map (quote_requests provider) syms)%list).
Proof.
  induction syms as [|s syms IH]; intros out trace.
  - simpl; now rewrite !app_nil_r.
  - cbn [fold_left map flat_map].
    rewrite tickers_step_eq, IH, <- !app_assoc; reflexivity.
Qed.

Lemma get_tickers_eq symbols provider :
  tickers symbols provider
  = (VDict [("data",
             VList (map (quote_result provider) (parse_symbols symbols)))],
     flat_map (quote_requests provider) (parse_symbols symbols)).
Proof. unfold get_tickers; rewrite tickers_fold; reflexivity. Qed.

Lemma parse_symbols_spec symbols s :
  In s (parse_symbols symbols) ->
  exists token, In token (Str.split "," symbols)
    /\ Str.is_empty (Str.strip token) = false
    /\ s = Str.upper (Str.strip token).
Proof.
  unfold parse_symbols; rewrite in_map_iff.
  intros (token & <- & Hin); apply filter_In in Hin.
  destruct Hin as [Hin Hne]; exists token; repeat split; [assumption|].
  now destruct (Str.is_empty (Str.strip token)).
Qed.

(** A quote returned by [get_quote] comes out of [normalize_quote] on the
    upper-cased symbol. *)
Lemma get_quote_ok symbol provider q t :
  get_quote getenv http_get symbol provider = (Ok q, t) ->
  exists data,
    normalize_quote (Str.upper symbol) (Str.lower provider) data = Ok q.
Proof.
  unfold get_quote, get_quote_try, fetch_quote, not_set, _get_env.
  generalize (Str.lower provider) as p, (Str.upper symbol) as sym.
  intros p sym.
  repeat match goal with
  | |- context [String.eqb p ?c] => destruct (String.eqb p c)
  | |- context [getenv ?v] => destruct (getenv v)
  | |- context [Str.is_empty ?k] => destruct (Str.is_empty k)
  end; try discriminate;
  (destruct (http_get _) as [msg|r]; [discriminate|]);
  (destruct (raise_for_status r); [|discriminate]); simpl;
  (destruct (json r) as [data|]; [|discriminate]); simpl;
  (destruct (normalize_quote sym p data) as [q'|] eqn:E; [|discriminate]);
  intros H; exists data; congruence.
Qed.



(** C10.  The batch endpoint returns as many results as there are
    comma-separated tokens that are not empty once trimmed, which is at
    most the number of tokens; ["TSLA,,AAPL,"] has four tokens and yields
    exactly two results. *)
Theorem get_tickers_drops_empty_tokens (symbols provider : string) :
  (exists out,
     fst (tickers symbols provider) = VDict [("data", VList out)]
     /\ List.length out
        = List.length (filter (fun t => negb (Str.is_empty (Str.strip t)))
                    (Str.split "," symbols))
     /\ (List.length out <= List.length (Str.split "," symbols))%nat)
  /\ (exists out,
        fst (tickers "TSLA,,AAPL," provider) = VDict [("data", VList out)]
        /\ List.length out = 2%nat
        /\ List.length (Str.split "," "TSLA,,AAPL,") = 4%nat).
Proof.
  split.
  - eexists; split; [rewrite get_tickers_eq; reflexivity|].
    unfold parse_symbols; rewrite !List.length_map.
    split; [reflexivity | apply filter_length_le].
  - eexists; split; [rewrite get_tickers_eq; reflexivity|].
    rewrite List.length_map; split; reflexivity.
Qed.

End BatchProperties.


(** * Further properties of the fetcher *)

Lemma lower_char_idem (c : ascii) :
  Str.lower_char (Str.lower_char c) = Str.lower_char c.
Proof. destruct c as [[] [] [] [] [] [] [] []]; reflexivity. Qed.

Lemma lower_idem (s : string) : Str.lower (Str.lower s) = Str.lower s.
Proof.
  unfold Str.lower.
  induction s as [|c r IH]; simpl; [reflexivity|].
  now rewrite lower_char_idem, IH.
Qed.

Lemma normalize_quote_total (symbol provider : string) (raw : value) :
  exists r, normalize_quote symbol provider raw = Ok r.
Proof.
  destruct (normalize_quote_record symbol provider raw) as [rest H]; eauto.
Qed.

Section FetcherProperties.

Variable getenv : string -> option string.
Variable http_get : request -> string + response.

(** The three ways the [try] block of [get_quote] goes: the provider is not
    supported, its credential is unset or empty, or one request carrying the
    credential is sent. *)
Lemma get_quote_try_cases (symbol provider : string) :
  (~ In provider supported_providers
   /\ get_quote_try getenv http_get symbol provider
      = (Err (HTTPException 400 "Unsupported provider"), []))
  \/ (exists var,
        credential_var provider = Some var
        /\ (getenv var = None \/ getenv var = Some "")
        /\ get_quote_try getenv http_get symbol provider = not_set var)
  \/ (exists var key rq,
        credential_var provider = Some var
        /\ getenv var = Some key /\ key <> ""
        /\ In key (map snd (params rq))
        /\ get_quote_try getenv http_get symbol provider = fetch_quote http_get symbol provider rq).
Proof.
  unfold get_quote_try, credential_var, _get_env.
  repeat match goal with
  | |- context [String.eqb provider ?c] =>
      destruct (String.eqb_spec provider c) as [->|?]
  end;
  try match goal with
  | |- context [getenv ?v] =>
      destruct (getenv v) as [[|c key]|] eqn:E; simpl;
      [ right; left; exists v; auto
      | right; right; exists v, (String c key); eexists;
        split; [reflexivity|]; split; [exact E|];
        split; [discriminate|]; split; [|reflexivity]; simpl; tauto
      | right; left; exists v; auto ]
  end.
  left; split; [|reflexivity].
  simpl; intros [E|[E|[E|[E|[E|[]]]]]]; congruence.
Qed.

(** What comes back once the request [rq] is sent. *)
Lemma fetch_quote_cases (symbol provider : string) (rq : request) :
  exists res, fetch_quote http_get symbol provider rq = (res, [rq])
    /\ match http_get rq with
       | inl msg => res = Err (RequestException msg)
       | inr resp =>
           if response_ok resp then
             match body resp with
             | inl msg => res = Err (RequestException msg)
             | inr data => res = normalize_quote symbol provider data
             end
           else res = Err (HTTPError resp (error_text resp))
       end.
Proof.
  unfold fetch_quote, raise_for_status, json.
  eexists; split; [reflexivity|].
  destruct (http_get rq) as [msg|resp]; [reflexivity|].
  destruct (response_ok resp); [|reflexivity].
  destruct (body resp); reflexivity.
Qed.

(** [get_quote] after its handlers, along the same three ways. *)
Lemma get_quote_cases (symbol provider : string) :
  (~ In (Str.lower provider) supported_providers
   /\ get_quote getenv http_get symbol provider
      = (Err (HTTPException 400 "Unsupported provider"), []))
  \/ (exists var,
        credential_var (Str.lower provider) = Some var
        /\ (getenv var = None \/ getenv var = Some "")
        /\ get_quote getenv http_get symbol provider
           = (Err (HTTPException 400 (var ++ " not set")), []))
  \/ (exists var key rq res,
        credential_var (Str.lower provider) = Some var
        /\ getenv var = Some key /\ key <> ""
        /\ In key (map snd (params rq))
        /\ fetch_quote http_get (Str.upper symbol) (Str.lower provider) rq
           = (res, [rq])
        /\ get_quote getenv http_get symbol provider
           = (match res with
              | Ok quote => Ok quote
              | Err e => Err (get_quote_handle e)
              end, [rq])).
Proof.
  unfold get_quote.
  destruct (get_quote_try_cases (Str.upper symbol) (Str.lower provider))
    as [[Hout ->]|[(var & Hv & He & ->)|(var & key & rq & Hv & He & Hk & Hin & ->)]].
  - now left.
  - right; left; exists var; auto.
  - right; right.
    destruct (fetch_quote_cases (Str.upper symbol) (Str.lower provider) rq)
      as (res & Hres & _).
    exists var, key, rq, res; rewrite Hres.
    repeat split; try assumption.
    now destruct res.
Qed.

(** What [get_quote] returns when it has sent the request [rq]. *)
Lemma get_quote_sent (symbol provider : string) res rq :
  get_quote getenv http_get symbol provider = (res, [rq]) ->
  exists res',
    fetch_quote http_get (Str.upper symbol) (Str.lower provider) rq
    = (res', [rq])
    /\ res = match res' with
             | Ok quote => Ok quote
             | Err e => Err (get_quote_handle e)
             end.
Proof.
  destruct (get_quote_cases symbol provider)
    as [[_ ->]|[(var & _ & _ & ->)|(var & key & rq' & res' & _ & _ & _ & _ & Hf & ->)]];
    try discriminate.
  intros H; injection H as <- <-; eauto.
Qed.

(** X1.  [get_quote] does not depend on the case of its arguments: the
    symbol is upper-cased and the provider lower-cased before anything
    else, so a call equals the call on the normalised arguments. *)
Theorem get_quote_case_insensitive (symbol provider : string) :
  get_quote getenv http_get symbol provider
  = get_quote getenv http_get (Str.upper symbol) (Str.lower provider).
Proof. unfold get_quote; now rewrite upper_idem, lower_idem. Qed.

(** X2.  A credential variable that is set to the empty string counts as
    missing: the fetch raises HTTPException 400 naming the variable and
    sends no request. *)
Theorem get_quote_empty_credential (symbol provider var : string) :
  credential_var (Str.lower provider) = Some var ->
  getenv var = Some "" ->
  get_quote getenv http_get symbol provider
  = (Err (HTTPException 400 (var ++ " not set")), []).
Proof.
  intros Hv He.
  destruct (get_quote_cases symbol provider)
    as [[Hout _]|[(var' & Hv' & _ & H)|(var' & key & rq & res & Hv' & He' & Hk & _)]].
  - exfalso; apply Hout; revert Hv; unfold credential_var.
    repeat match goal with
    | |- context [String.eqb ?p ?c] =>
        destruct (String.eqb_spec p c) as [->|?]; [simpl; tauto|]
    end; discriminate.
  - congruence.
  - congruence.
Qed.

(** X3.  When the provider answers the request with a status from 400 to
    599, [get_quote] raises HTTPException with status 502, not with the
    upstream status: the response attached to the [requests.HTTPError] is
    falsy exactly because its status is an error status. *)
Theorem get_quote_upstream_error_is_502
  (symbol provider : string) res rq resp :
  get_quote getenv http_get symbol provider = (res, [rq]) ->
  http_get rq = inr resp ->
  400 <= status_code resp < 600 ->
  res = Err (HTTPException 502 (error_text resp)).
Proof.
  intros H Hnet Hst; apply get_quote_sent in H.
  destruct H as (res' & Hf & ->).
  destruct (fetch_quote_cases (Str.upper symbol) (Str.lower provider) rq)
    as (res'' & Hf' & Hcase).
  assert (res'' = res') by congruence; subst res''.
  rewrite Hnet in Hcase.
  assert (Hok : response_ok resp = false).
  { unfold response_ok.
    replace (400 <=? status_code resp) with true by (symmetry; lia).
    replace (status_code resp <? 600) with true by (symmetry; lia).
    reflexivity. }
  rewrite Hok in Hcase; subst res'; simpl; now rewrite Hok.
Qed.

(** X4.  When the request raises before any answer, or the answer has no
    error status but its body is not JSON, [get_quote] raises HTTPException
    500 whose detail is the text of that exception. *)
Theorem get_quote_transport_error_is_500
  (symbol provider : string) res rq msg :
  get_quote getenv http_get symbol provider = (res, [rq]) ->
  http_get rq = inl msg
  \/ (exists resp, http_get rq = inr resp
        /\ ~ (400 <= status_code resp < 600)
        /\ body resp = inl msg) ->
  res = Err (HTTPException 500 msg).
Proof.
  intros H Hnet; apply get_quote_sent in H.
  destruct H as (res' & Hf & ->).
  destruct (fetch_quote_cases (Str.upper symbol) (Str.lower provider) rq)
    as (res'' & Hf' & Hcase).
  assert (res'' = res') by congruence; subst res''.
  destruct Hnet as [Hnet|(resp & Hnet & Hst & Hbody)]; rewrite Hnet in Hcase.
  - now subst res'.
  - assert (Hok : response_ok resp = true).
    { unfold response_ok.
      destruct (Z.leb_spec 400 (status_code resp));
        destruct (Z.ltb_spec (status_code resp) 600); simpl; try reflexivity.
      exfalso; apply Hst; lia. }
    rewrite Hok, Hbody in Hcase; now subst res'.
Qed.

(** X5.  When the answer has no error status and a JSON body, [get_quote]
    returns what [normalize_quote] makes of that body for the upper-cased
    symbol and the lower-cased provider; the record carries both. *)
Theorem get_quote_returns_normalized
  (symbol provider : string) res rq resp data :
  get_quote getenv http_get symbol provider = (res, [rq]) ->
  http_get rq = inr resp ->
  ~ (400 <= status_code resp < 600) ->
  body resp = inr data ->
  res = normalize_quote (Str.upper symbol) (Str.lower provider) data
  /\ exists quote,
       res = Ok quote
       /\ field quote "symbol" = Some (VStr (Str.upper symbol))
       /\ field quote "provider" = Some (VStr (Str.lower provider)).
Proof.
  intros H Hnet Hst Hbody; apply get_quote_sent in H.
  destruct H as (res' & Hf & ->).
  destruct (fetch_quote_cases (Str.upper symbol) (Str.lower provider) rq)
    as (res'' & Hf' & Hcase).
  assert (res'' = res') by congruence; subst res''.
  rewrite Hnet in Hcase.
  assert (Hok : response_ok resp = true).
  { unfold response_ok.
    destruct (Z.leb_spec 400 (status_code resp));
      destruct (Z.ltb_spec (status_code resp) 600); simpl; try reflexivity.
    exfalso; apply Hst; lia. }
  rewrite Hok, Hbody in Hcase; subst res'.
  destruct (normalize_quote_record (Str.upper symbol) (Str.lower provider)
              data) as [rest Hr].
  rewrite Hr; split; [reflexivity|].
  eexists; split; [reflexivity|].
  rewrite upper_idem; split; reflexivity.
Qed.

(** X6.  [get_quote] sends at most one request.  When it raises, the
    exception is an HTTPException whose status is 400, 500 or 502; the
    status is 400 exactly when no request was sent. *)
Theorem get_quote_outcomes (symbol provider : string) :
  exists res trace,
    get_quote getenv http_get symbol provider = (res, trace)
    /\ (List.length trace <= 1)%nat
    /\ (forall quote, res = Ok quote -> List.length trace = 1%nat)
    /\ (forall e, res = Err e ->
          exists status detail,
            e = HTTPException status detail
            /\ (status = 400 \/ status = 500 \/ status = 502)
            /\ (status = 400 <-> trace = [])).
Proof.
  destruct (get_quote_cases symbol provider)
    as [[_ ->]|[(var & _ & _ & ->)|(var & key & rq & res & _ & _ & _ & _ & Hf & ->)]].
  - do 2 eexists; split; [reflexivity|]; split; [simpl; lia|].
    split; [discriminate|].
    intros e H; injection H as <-; do 2 eexists; split; [reflexivity|].
    split; [now left | tauto].
  - do 2 eexists; split; [reflexivity|]; split; [simpl; lia|].
    split; [discriminate|].
    intros e H; injection H as <-; do 2 eexists; split; [reflexivity|].
    split; [now left | tauto].
  - do 2 eexists; split; [reflexivity|]; split; [simpl; lia|].
    split; [reflexivity|].
    destruct (fetch_quote_cases (Str.upper symbol) (Str.lower provider) rq)
      as (res' & Hf' & Hcase).
    assert (res' = res) by congruence; subst res'.
    intros e He.
    destruct res as [quote|e0]; [discriminate|]; injection He as <-.
    assert (Hshape :
      (exists msg, e0 = RequestException msg)
      \/ (exists resp, response_ok resp = false
            /\ e0 = HTTPError resp (error_text resp))).
    { destruct (http_get rq) as [msg|resp]; [injection Hcase as ->; eauto|].
      destruct (response_ok resp) eqn:Hok;
        [|injection Hcase as ->; eauto].
      destruct (body resp) as [msg|data]; [injection Hcase as ->; eauto|].
      destruct (normalize_quote_total (Str.upper symbol) (Str.lower provider)
                  data) as [r Hr]; congruence. }
    destruct Hshape as [[msg ->]|(resp & Hok & ->)]; simpl.
    + do 2 eexists; split; [reflexivity|].
      split; [right; now left|]; split; [discriminate|discriminate].
    + rewrite Hok; do 2 eexists; split; [reflexivity|].
      split; [right; now right|]; split; [discriminate|discriminate].
Qed.

(** X7.  Every request [get_quote] sends carries, among its parameters, the
    non-empty credential read from the variable of the requested
    provider: no request leaves without a credential. *)
Theorem get_quote_requests_carry_credential
  (symbol provider : string) (rq : request) :
  In rq (snd (get_quote getenv http_get symbol provider)) ->
  exists var key,
    credential_var (Str.lower provider) = Some var
    /\ getenv var = Some key /\ key <> ""
    /\ In key (map snd (params rq)).
Proof.
  destruct (get_quote_cases symbol provider)
    as [[_ ->]|[(var & _ & _ & ->)|(var & key & rq' & res & Hv & He & Hk & Hin & _ & ->)]];
    simpl; try tauto.
  intros [<-|[]]; exists var, key; auto.
Qed.

End FetcherProperties.

Lemma get_quote_empty_credential_witness :
  get_quote empty_env sample_net "tsla" "FMP"
  = (Err (HTTPException 400 "FMP_API_KEY not set"), []).
Proof.
  apply (get_quote_empty_credential empty_env sample_net "tsla" "FMP"
           "FMP_API_KEY"); reflexivity.
Defined.

Lemma get_quote_upstream_error_is_502_witness :
  fst (get_quote sample_env sample_net "tsla" "finnhub")
  = Err (HTTPException 502 "404 Client Error: Not Found").
Proof.
  apply (get_quote_upstream_error_is_502 sample_env sample_net
           "tsla" "finnhub" _
           (mkRequest "https://finnhub.io/api/v1/quote"
              [("symbol", "TSLA"); ("token", "k")])
           (mkResponse 404 "404 Client Error: Not Found" (inl "no body")));
    [reflexivity | reflexivity | simpl; lia].
Defined.

Lemma get_quote_transport_error_is_500_witness :
  fst (get_quote sample_env down_net "tsla" "finnhub")
  = Err (HTTPException 500 "Connection refused")
  /\ fst (get_quote sample_env html_net "tsla" "finnhub")
     = Err (HTTPException 500 "Expecting value: line 1 column 1 (char 0)").
Proof.
  split.
  - apply (get_quote_transport_error_is_500 sample_env down_net
             "tsla" "finnhub" _
             (mkRequest "https://finnhub.io/api/v1/quote"
                [("symbol", "TSLA"); ("token", "k")]));
      [reflexivity | left; reflexivity].
  - apply (get_quote_transport_error_is_500 sample_env html_net
             "tsla" "finnhub" _
             (mkRequest "https://finnhub.io/api/v1/quote"
                [("symbol", "TSLA"); ("token", "k")]));
      [reflexivity | right; eexists; split; [reflexivity|]].
    split; [simpl; lia | reflexivity].
Defined.

Lemma get_quote_returns_normalized_witness :
  fst (get_quote sample_env sample_net "aapl" "Finnhub")
  = normalize_quote "AAPL" "finnhub" (VDict []).
Proof.
  apply (get_quote_returns_normalized sample_env sample_net
           "aapl" "Finnhub" _
           (mkRequest "https://finnhub.io/api/v1/quote"
              [("symbol", "AAPL"); ("token", "k")])
           (mkResponse 200 "" (inr (VDict []))) (VDict []));
    [reflexivity | reflexivity | simpl; lia | reflexivity].
Defined.

Lemma get_quote_outcomes_witness :
  exists status detail,
    fst (get_quote sample_env sample_net "tsla" "finnhub")
    = Err (HTTPException status detail)
    /\ (status = 400 \/ status = 500 \/ status = 502).
Proof.
  destruct (get_quote_outcomes sample_env sample_net "tsla" "finnhub")
    as (res & trace & H & _ & _ & He).
  vm_compute in H; injection H as <- <-.
  destruct (He _ eq_refl) as (status & detail & Heq & Hst & _).
  exists status, detail; split; [|exact Hst].
  rewrite <- Heq; reflexivity.
Defined.

Lemma get_quote_requests_carry_credential_witness :
  exists var key,
    credential_var "finnhub" = Some var
    /\ sample_env var = Some key /\ key <> ""
    /\ In key [ "AAPL"; "k" ].
Proof.
  apply (get_quote_requests_carry_credential sample_env sample_net
           "aapl" "finnhub"
           (mkRequest "https://finnhub.io/api/v1/quote"
              [("symbol", "AAPL"); ("token", "k")])).
  simpl; left; reflexivity.
Defined.

(** * Further properties of the batch endpoint *)

(** ** Splitting and trimming *)

Lemma split_nonempty (sep : ascii) (s : string) : Str.split sep s <> [].
Proof.
  destruct s as [|c r]; simpl; [discriminate|].
  destruct (Ascii.eqb c sep); [discriminate|].
  destruct (Str.split sep r); discriminate.
Qed.

Lemma split_app (sep : ascii) (a b : string) :
  Str.split sep (a ++ String sep b) = (Str.split sep a ++ Str.split sep b)%list.
Proof.
  induction a as [|c r IH]; simpl.
  - now rewrite Ascii.eqb_refl.
  - destruct (Ascii.eqb c sep); [now rewrite IH|].
    rewrite IH.
    pose proof (split_nonempty sep r) as Hne.
    destruct (Str.split sep r); [contradiction|reflexivity].
Qed.

Lemma split_no_sep (sep : ascii) (s token : string) :
  In token (Str.split sep s) -> Str.mem_char sep token = false.
Proof.
  revert token; induction s as [|c r IH]; simpl; intros token.
  - intros [<-|[]]; reflexivity.
  - destruct (Ascii.eqb c sep) eqn:E.
    + intros [<-|H]; [reflexivity | now apply IH].
    + pose proof (split_nonempty sep r) as Hne.
      destruct (Str.split sep r) as [|w ws]; [contradiction|].
      intros [<-|H].
      * simpl; rewrite Ascii.eqb_sym, E; simpl.
        apply IH; now left.
      * apply IH; now right.
Qed.

Lemma lstrip_keeps_absent (p : ascii -> bool) (c : ascii) (s : string) :
  Str.mem_char c s = false -> Str.mem_char c (Str.lstrip p s) = false.
Proof.
  induction s as [|d r IH]; simpl; [trivial|].
  intros H; apply orb_false_iff in H; destruct H as [H1 H2].
  destruct (p d); [auto | simpl; now rewrite H1, H2].
Qed.

Lemma rstrip_keeps_absent (p : ascii -> bool) (c : ascii) (s : string) :
  Str.mem_char c s = false -> Str.mem_char c (Str.rstrip p s) = false.
Proof.
  induction s as [|d r IH]; simpl; [trivial|].
  intros H; apply orb_false_iff in H; destruct H as [H1 H2].
  specialize (IH H2).
  destruct (Str.rstrip p r) as [|e r'].
  - destruct (p d); simpl; [reflexivity | now rewrite H1].
  - change (Str.mem_char c (String d (String e r')))
      with (Ascii.eqb c d || Str.mem_char c (String e r')).
    now rewrite H1, IH.
Qed.

Lemma upper_char_comma (c : ascii) :
  Ascii.eqb "," (Str.upper_char c) = Ascii.eqb "," c.
Proof. destruct c as [[] [] [] [] [] [] [] []]; reflexivity. Qed.

Lemma upper_keeps_comma (s : string) :
  Str.mem_char "," (Str.upper s) = Str.mem_char "," s.
Proof.
  unfold Str.upper; induction s as [|c r IH]; [reflexivity|].
  cbn [Str.map_chars Str.mem_char].
  now rewrite upper_char_comma, IH.
Qed.

Lemma upper_char_space (c : ascii) :
  Str.is_space (Str.upper_char c) = Str.is_space c.
Proof. destruct c as [[] [] [] [] [] [] [] []]; reflexivity. Qed.

Lemma lstrip_upper (s : string) :
  Str.lstrip Str.is_space (Str.upper s)
  = Str.upper (Str.lstrip Str.is_space s).
Proof.
  unfold Str.upper; induction s as [|c r IH]; simpl; [reflexivity|].
  rewrite upper_char_space; destruct (Str.is_space c); [exact IH|reflexivity].
Qed.

Lemma rstrip_upper (s : string) :
  Str.rstrip Str.is_space (Str.upper s)
  = Str.upper (Str.rstrip Str.is_space s).
Proof.
  unfold Str.upper; induction s as [|c r IH]; simpl; [reflexivity|].
  rewrite IH, upper_char_space.
  destruct (Str.rstrip Str.is_space r); simpl;
    [destruct (Str.is_space c)|]; reflexivity.
Qed.

Lemma strip_upper (s : string) :
  Str.strip (Str.upper s) = Str.upper (Str.strip s).
Proof. unfold Str.strip; now rewrite lstrip_upper, rstrip_upper. Qed.

Lemma lstrip_starts_clean p s : starts_clean p (Str.lstrip p s).
Proof.
  induction s as [|c r IH]; simpl; [exact I|].
  destruct (p c) eqn:E; [exact IH | exact E].
Qed.

Lemma lstrip_fixed p s : starts_clean p s -> Str.lstrip p s = s.
Proof. destruct s as [|c r]; simpl; [reflexivity | now intros ->]. Qed.

Lemma rstrip_starts_clean p s :
  starts_clean p s -> starts_clean p (Str.rstrip p s).
Proof.
  destruct s as [|c r]; simpl; [trivial|]; intros H.
  destruct (Str.rstrip p r); [rewrite H|]; exact H.
Qed.

Lemma rstrip_idem p s : Str.rstrip p (Str.rstrip p s) = Str.rstrip p s.
Proof.
  induction s as [|c r IH]; simpl; [reflexivity|].
  destruct (Str.rstrip p r) as [|d r'] eqn:E.
  - destruct (p c) eqn:Ec; simpl; [reflexivity | now rewrite Ec].
  - change (Str.rstrip p (String c (String d r')))
      with (match Str.rstrip p (String d r') with
            | EmptyString => if p c then EmptyString else String c EmptyString
            | r'' => String c r''
            end).
    now rewrite IH.
Qed.

Lemma strip_idem (s : string) : Str.strip (Str.strip s) = Str.strip s.
Proof.
  unfold Str.strip.
  rewrite (lstrip_fixed Str.is_space
             (Str.rstrip Str.is_space (Str.lstrip Str.is_space s))).
  - apply rstrip_idem.
  - apply rstrip_starts_clean, lstrip_starts_clean.
Qed.

Lemma upper_is_empty (s : string) :
  Str.is_empty (Str.upper s) = Str.is_empty s.
Proof. now destruct s. Qed.

(** ** The symbols and the results *)

(** X8.  Every symbol the batch endpoint works on is non-empty, has no
    leading or trailing whitespace, contains no comma and is unchanged by
    upper-casing. *)
Theorem parse_symbols_wellformed (symbols s : string) :
  In s (parse_symbols symbols) ->
  s <> ""
  /\ Str.strip s = s
  /\ Str.upper s = s
  /\ Str.mem_char "," s = false.
Proof.
  intros Hin; apply parse_symbols_spec in Hin.
  destruct Hin as (token & Hin & Hne & ->).
  split; [|split; [|split]].
  - intros H.
    assert (E : Str.is_empty (Str.upper (Str.strip token)) = true)
      by now rewrite H.
    rewrite upper_is_empty, Hne in E; discriminate E.
  - now rewrite strip_upper, strip_idem.
  - apply upper_idem.
  - rewrite upper_keeps_comma; unfold Str.strip.
    apply rstrip_keeps_absent, lstrip_keeps_absent.
    exact (split_no_sep _ _ _ Hin).
Qed.

Lemma parse_symbols_wellformed_witness :
  "NSE:TCS" <> ""
  /\ Str.strip "NSE:TCS" = "NSE:TCS"
  /\ Str.upper "NSE:TCS" = "NSE:TCS"
  /\ Str.mem_char "," "NSE:TCS" = false.
Proof.
  apply (parse_symbols_wellformed "tsla, nse:tcs ,").
  simpl; tauto.
Defined.

Lemma flat_map_nil {A B : Type} (f : A -> list B) (l : list A) :
  (forall x, f x = []) -> flat_map f l = [].
Proof.
  intros H; induction l as [|x l IH]; simpl; [reflexivity|].
  now rewrite H, IH.
Qed.

Lemma parse_symbols_app (a b : string) :
  parse_symbols (a ++ String "," b)
  = (parse_symbols a ++ parse_symbols b)%list.
Proof.
  unfold parse_symbols.
  now rewrite split_app, filter_app, map_app.
Qed.

Lemma parse_symbols_blank (symbols : string) :
  (forall token, In token (Str.split "," symbols) -> Str.strip token = "") ->
  parse_symbols symbols = [].
Proof.
  unfold parse_symbols; intros H.
  induction (Str.split "," symbols) as [|t ts IH]; [reflexivity|].
  simpl; rewrite (H t) by now left.
  simpl; apply IH; intros token Hin; apply H; now right.
Qed.

Section BatchExtras.

Variable getenv : string -> option string.
Variable http_get : request -> string + response.
Variable handler_has_wrapped : bool.

Local Notation tickers := (get_tickers getenv http_get handler_has_wrapped).
Local Notation result_of :=
  (quote_result getenv http_get handler_has_wrapped).
Local Notation requests_of :=
  (quote_requests getenv http_get handler_has_wrapped).

(** X9.  A symbols parameter whose tokens are all blank (the empty string,
    commas only, whitespace between commas) gives an empty result list and
    sends no request. *)
Theorem get_tickers_blank (symbols provider : string) :
  (forall token, In token (Str.split "," symbols) -> Str.strip token = "") ->
  tickers symbols provider = (VDict [("data", VList [])], []).
Proof.
  intros H; rewrite get_tickers_eq, (parse_symbols_blank symbols H).
  reflexivity.
Qed.

(** X10.  The batch over two comma-joined symbol lists is the batch over
    the first followed by the batch over the second: results and requests
    are concatenated, and duplicates are kept. *)
Theorem get_tickers_app (a b provider : string) :
  exists out_a out_b,
    fst (get_tickers getenv http_get handler_has_wrapped a provider)
    = VDict [("data", VList out_a)]
    /\ fst (get_tickers getenv http_get handler_has_wrapped b provider)
       = VDict [("data", VList out_b)]
    /\ fst (get_tickers getenv http_get handler_has_wrapped
              (a ++ String "," b) provider)
       = VDict [("data", VList (out_a ++ out_b))]
    /\ snd (get_tickers getenv http_get handler_has_wrapped
              (a ++ String "," b) provider)
       = (snd (get_tickers getenv http_get handler_has_wrapped a provider)
          ++ snd (get_tickers getenv http_get handler_has_wrapped b provider)
         )%list.
Proof.
  rewrite !get_tickers_eq, parse_symbols_app, map_app, flat_map_app.
  do 2 eexists; repeat split.
Qed.

Lemma requests_of_bound (provider s : string) :
  (List.length (requests_of provider s) <= 1)%nat.
Proof.
  unfold quote_requests, call_wrapped.
  destruct handler_has_wrapped; [|simpl; lia].
  destruct (get_quote_cases getenv http_get s provider)
    as [[_ ->]|[(var & _ & _ & ->)|(var & key & rq & res & _ & _ & _ & _ & _ & ->)]];
    simpl; lia.
Qed.

(** X11.  The batch endpoint sends at most one request per symbol, hence at
    most as many requests as there are comma-separated tokens. *)
Theorem get_tickers_request_bound (symbols provider : string) :
  (List.length (snd (tickers symbols provider))
   <= List.length (parse_symbols symbols))%nat
  /\ (List.length (snd (tickers symbols provider))
      <= List.length (Str.split "," symbols))%nat.
Proof.
  rewrite get_tickers_eq; simpl.
  assert (H : (List.length (flat_map (requests_of provider)
                              (parse_symbols symbols))
               <= List.length (parse_symbols symbols))%nat).
  { induction (parse_symbols symbols) as [|s syms IH]; simpl; [lia|].
    rewrite List.length_app.
    pose proof (requests_of_bound provider s); lia. }
  split; [exact H|].
  eapply Nat.le_trans; [exact H|].
  unfold parse_symbols; rewrite List.length_map; apply filter_length_le.
Qed.

(** X12.  The provider label of a batch item depends on the outcome: a
    quote carries the lower-cased provider, an error record carries the
    provider exactly as the caller wrote it. *)
Theorem quote_result_provider_label (provider s : string) :
  (forall quote,
     fst (call_wrapped getenv http_get handler_has_wrapped s provider)
     = Ok quote ->
     field (result_of provider s) "provider"
     = Some (VStr (Str.lower provider)))
  /\ (forall e,
        fst (call_wrapped getenv http_get handler_has_wrapped s provider)
        = Err e ->
        field (result_of provider s) "provider" = Some (VStr provider)).
Proof.
  unfold quote_result; split.
  - intros quote H; rewrite H.
    unfold call_wrapped in H.
    destruct handler_has_wrapped; [|discriminate H].
    destruct (get_quote getenv http_get s provider) as [res t] eqn:E.
    simpl in H; subst res.
    apply get_quote_ok in E; destruct E as [data Hq].
    destruct (normalize_quote_record (Str.upper s) (Str.lower provider) data)
      as [rest Hr].
    rewrite Hr in Hq; injection Hq as <-; reflexivity.
  - intros e H; rewrite H; now destruct e.
Qed.

End BatchExtras.

Lemma get_tickers_blank_witness :
  get_tickers sample_env sample_net true " , ," "finnhub"
  = (VDict [("data", VList [])], []).
Proof.
  apply get_tickers_blank.
  simpl; intros token [<-|[<-|[<-|[]]]]; reflexivity.
Defined.

Lemma quote_result_provider_label_witness :
  field (quote_result sample_env sample_net true "FINNHUB" "AAPL") "provider"
  = Some (VStr "finnhub")
  /\ field (quote_result sample_env sample_net true "FINNHUB" "TSLA")
       "provider"
     = Some (VStr "FINNHUB").
Proof.
  split.
  - eapply (proj1 (quote_result_provider_label sample_env sample_net true
                     "FINNHUB" "AAPL")); reflexivity.
  - eapply (proj2 (quote_result_provider_label sample_env sample_net true
                     "FINNHUB" "TSLA")); reflexivity.
Defined.

(** X13.  When the registered handler has no [__wrapped__] attribute, the
    attribute lookup raises for every symbol: the batch endpoint sends no
    request and returns, for each symbol, an error record whose error is
    the text of the AttributeError. *)
Theorem get_tickers_without_wrapped
  (getenv : string -> option string) (http_get : request -> string + response)
  (symbols provider : string) :
  get_tickers getenv http_get false symbols provider
  = (VDict [("data",
             VList (map (fun s =>
                           error_record s provider
                             "'function' object has no attribute '__wrapped__'")
                      (parse_symbols symbols)))],
     []).
Proof.
  rewrite get_tickers_eq, flat_map_nil by reflexivity.
  reflexivity.
Qed.

(** X14.  With a handler that can be called, a batch for a provider that is
    not supported once lower-cased sends no request and returns, for each
    symbol, the error record of "Unsupported provider". *)
Theorem get_tickers_unsupported_provider
  (getenv : string -> option string) (http_get : request -> string + response)
  (symbols provider : string) :
  ~ In (Str.lower provider) supported_providers ->
  get_tickers getenv http_get true symbols provider
  = (VDict [("data",
             VList (map (fun s =>
                           error_record s provider "Unsupported provider")
                      (parse_symbols symbols)))],
     []).
Proof.
  intros Hout; rewrite get_tickers_eq.
  assert (Hcall : forall s,
            call_wrapped getenv http_get true s provider
            = (Err (HTTPException 400 "Unsupported provider"), [])).
  { intros s; unfold call_wrapped.
    destruct (get_quote_cases getenv http_get s provider)
      as [[_ H]|[(var & Hv & _)|(var & key & rq & res & Hv & _)]];
      [exact H| |];
      exfalso; apply Hout; revert Hv; unfold credential_var;
      repeat match goal with
      | |- context [String.eqb ?p ?c] =>
          destruct (String.eqb_spec p c) as [->|?]; [simpl; tauto|]
      end; discriminate. }
  rewrite (map_ext (quote_result getenv http_get true provider)
             (fun s => error_record s provider "Unsupported provider"))
    by (intros s; unfold quote_result; now rewrite Hcall).
  rewrite flat_map_nil
    by (intros s; unfold quote_requests; now rewrite Hcall).
  reflexivity.
Qed.

Lemma get_tickers_unsupported_provider_witness :
  get_tickers sample_env sample_net true "tsla,aapl" "yahoo"
  = (VDict [("data",
             VList [error_record "TSLA" "yahoo" "Unsupported provider";
                    error_record "AAPL" "yahoo" "Unsupported provider"])],
     []).
Proof.
  apply (get_tickers_unsupported_provider sample_env sample_net
           "tsla,aapl" "yahoo").
  simpl; intros [E|[E|[E|[E|[E|[]]]]]]; discriminate E.
Defined.

(** * Further properties of the normalizer *)

Lemma float_of_number (x : Float.t) :
  Py.float (Py.or_ (VFloat x) (VInt 0)) = Ok (drop_zero_sign x).
Proof.
  unfold Py.or_, drop_zero_sign; simpl.
  destruct (Float.eqb x Float.zero); reflexivity.
Qed.

Lemma float_of_numeric_string (s : string) (x : Float.t) :
  Float.of_string s = Some x ->
  Py.float (Py.or_ (VStr s) (VInt 0)) = Ok x.
Proof.
  destruct s as [|c r]; [discriminate|].
  intros H; unfold Py.or_; simpl Py.truthy; simpl negb; cbv iota.
  unfold Py.float; now rewrite H.
Qed.

Lemma float_field_number entries key x :
  Py.lookup entries key = Some (VFloat x) ->
  float_field (VDict entries) key = Ok (drop_zero_sign x).
Proof.
  unfold float_field; simpl; intros ->; simpl bind.
  apply float_of_number.
Qed.

Lemma float_field_numeric_string entries key s x :
  Py.lookup entries key = Some (VStr s) ->
  Float.of_string s = Some x ->
  float_field (VDict entries) key = Ok x.
Proof.
  unfold float_field; simpl; intros -> H; simpl bind.
  now apply float_of_numeric_string.
Qed.

(** X15.  [normalize_quote] compares the provider as it is written: for
    every provider outside the five identifiers, whatever its case and
    whatever the payload, the result is the fallback record. *)
Theorem normalize_quote_unknown_provider (symbol provider : string)
  (raw : value) :
  ~ In provider supported_providers ->
  normalize_quote symbol provider raw
  = Ok (fallback (Str.upper symbol) provider).
Proof.
  intros Hout.
  destruct (normalize_quote_cases symbol provider raw)
    as [(r & Hr & _)|[_ H]]; [|exact H].
  exfalso; apply Hout.
  apply normalize_quote_try_branch in Hr.
  destruct Hr as [[-> _]|[[-> _]|[[-> _]|[[-> _]|[-> _]]]]]; simpl; tauto.
Qed.

Lemma normalize_quote_unknown_provider_witness :
  normalize_quote "tsla" "FINNHUB" (VDict [("c", VInt 7)])
  = Ok (fallback "TSLA" "FINNHUB").
Proof.
  apply (normalize_quote_unknown_provider "tsla" "FINNHUB").
  simpl; intros [E|[E|[E|[E|[E|[]]]]]]; discriminate E.
Defined.

(** X16.  A finnhub payload whose six numeric keys hold JSON floats is
    mapped key by key: c to price, dp to changePercent, o to open, h to
    high, l to low, pc to previousClose, each float kept except that a zero
    loses its sign; t is passed through as timestamp, null when absent. *)
Theorem finnhub_numbers_mapped (symbol : string)
  (entries : list (string * value)) (c dp o h l pc : Float.t) :
  Py.lookup entries "c" = Some (VFloat c) ->
  Py.lookup entries "dp" = Some (VFloat dp) ->
  Py.lookup entries "o" = Some (VFloat o) ->
  Py.lookup entries "h" = Some (VFloat h) ->
  Py.lookup entries "l" = Some (VFloat l) ->
  Py.lookup entries "pc" = Some (VFloat pc) ->
  normalize_quote symbol "finnhub" (VDict entries)
  = Ok (built (base (Str.upper symbol) "finnhub")
          (VFloat (drop_zero_sign c)) (VFloat (drop_zero_sign dp))
          (VFloat (drop_zero_sign o)) (VFloat (drop_zero_sign h))
          (VFloat (drop_zero_sign l)) (VFloat (drop_zero_sign pc))
          (get_or_none entries "t")).
Proof.
  intros Hc Hdp Ho Hh Hl Hpc.
  unfold normalize_quote, normalize_quote_try; simpl String.eqb; cbv iota.
  unfold finnhub_quote.
  rewrite (float_field_number _ _ _ Hc), (float_field_number _ _ _ Hdp),
    (float_field_number _ _ _ Ho), (float_field_number _ _ _ Hh),
    (float_field_number _ _ _ Hl), (float_field_number _ _ _ Hpc).
  reflexivity.
Qed.

Lemma finnhub_numbers_mapped_witness :
  normalize_quote "aapl" "finnhub" (VDict sample_finnhub)
  = Ok (built (base "AAPL" "finnhub")
          (VFloat (Float.of_Z 150)) (VFloat Float.zero)
          (VFloat (Float.of_Z 149)) (VFloat (Float.of_Z 152))
          (VFloat (Float.of_Z 148)) (VFloat (Float.of_Z 150))
          (VInt 1700000000)).
Proof.
  exact (finnhub_numbers_mapped "aapl" sample_finnhub (Float.of_Z 150) Float.neg_zero
           (Float.of_Z 149) (Float.of_Z 152) (Float.of_Z 148)
           (Float.of_Z 150) eq_refl eq_refl eq_refl eq_refl eq_refl eq_refl).
Defined.

(** X17.  A twelve payload whose six numeric keys hold numeric strings is
    mapped key by key: price, percent_change, open, high, low and
    previous_close are parsed into price, changePercent, open, high, low
    and previousClose; timestamp is passed through, null when absent. *)
Theorem twelve_strings_mapped (symbol : string)
  (entries : list (string * value))
  (s_price s_pct s_open s_high s_low s_prev : string)
  (price pct open high low prev : Float.t) :
  Py.lookup entries "price" = Some (VStr s_price) ->
  Py.lookup entries "percent_change" = Some (VStr s_pct) ->
  Py.lookup entries "open" = Some (VStr s_open) ->
  Py.lookup entries "high" = Some (VStr s_high) ->
  Py.lookup entries "low" = Some (VStr s_low) ->
  Py.lookup entries "previous_close" = Some (VStr s_prev) ->
  Float.of_string s_price = Some price ->
  Float.of_string s_pct = Some pct ->
  Float.of_string s_open = Some open ->
  Float.of_string s_high = Some high ->
  Float.of_string s_low = Some low ->
  Float.of_string s_prev = Some prev ->
  normalize_quote symbol "twelve" (VDict entries)
  = Ok (built (base (Str.upper symbol) "twelve")
          (VFloat price) (VFloat pct) (VFloat open) (VFloat high)
          (VFloat low) (VFloat prev) (get_or_none entries "timestamp")).
Proof.
  intros H1 H2 H3 H4 H5 H6 P1 P2 P3 P4 P5 P6.
  unfold normalize_quote, normalize_quote_try; simpl String.eqb; cbv iota.
  unfold twelve_quote.
  rewrite (float_field_numeric_string _ _ _ _ H1 P1),
    (float_field_numeric_string _ _ _ _ H2 P2),
    (float_field_numeric_string _ _ _ _ H3 P3),
    (float_field_numeric_string _ _ _ _ H4 P4),
    (float_field_numeric_string _ _ _ _ H5 P5),
    (float_field_numeric_string _ _ _ _ H6 P6).
  reflexivity.
Qed.

Lemma twelve_strings_mapped_witness :
  normalize_quote "msft" "twelve" (VDict sample_twelve)
  = Ok (built (base "MSFT" "twelve")
          (VFloat (Float.of_decimal false 35 (-1)))
          (VFloat (Float.of_decimal true 5 (-1)))
          (VFloat (Float.of_decimal false 25 (-1)))
          (VFloat (Float.of_Z 4)) (VFloat (Float.of_Z 2))
          (VFloat (Float.of_Z 3)) (VInt 1700000000)).
Proof.
  exact (twelve_strings_mapped "msft" sample_twelve
           "3.5" "-0.5" "2.5" "4" "2" "3"
           _ _ _ _ _ _ eq_refl eq_refl eq_refl eq_refl eq_refl eq_refl
           eq_refl eq_refl eq_refl eq_refl eq_refl eq_refl).
Defined.

(** X18.  For polygon the previous close of a record is never an
    independent datum: the record is the fallback record, without a
    previous close, or its previousClose is the very float reported as
    price. *)
Theorem polygon_previous_close_is_price (symbol : string) (raw : value) :
  exists r, normalize_quote symbol "polygon" raw = Ok r
    /\ ((r = fallback (Str.upper symbol) "polygon"
         /\ field r "previousClose" = None)
        \/ exists close,
             field r "price" = Some (VFloat close)
             /\ field r "previousClose" = Some (VFloat close)).
Proof.
  destruct (polygon_record symbol raw)
    as (r & Hr & [->|(close & cp & _ & Hp & Hpc & _)]).
  - eexists; split; [exact Hr|]; left; split; reflexivity.
  - exists r; split; [exact Hr|]; right; eauto.
Qed.

(** X19.  For polygon only the first element of [results] is read: further
    elements, and every other key of the payload, do not change the
    record. *)
Theorem polygon_first_result_only (symbol : string)
  (entries : list (string * value)) (first : value) (others : list value) :
  Py.lookup entries "results" = Some (VList (first :: others)) ->
  normalize_quote symbol "polygon" (VDict entries)
  = normalize_quote symbol "polygon" (VDict [("results", VList [first])]).
Proof.
  intros H.
  unfold normalize_quote, normalize_quote_try; simpl String.eqb; cbv iota.
  unfold polygon_quote; simpl Py.get; rewrite H; reflexivity.
Qed.

Lemma polygon_first_result_only_witness :
  normalize_quote "tsla" "polygon"
    (VDict [("status", VStr "OK");
            ("results", VList [VDict [("c", VInt 7)]; VDict [("c", VInt 9)]])])
  = normalize_quote "tsla" "polygon"
      (VDict [("results", VList [VDict [("c", VInt 7)]])]).
Proof.
  apply (polygon_first_result_only "tsla" _ (VDict [("c", VInt 7)])
           [VDict [("c", VInt 9)]]).
  reflexivity.
Defined.

(** X20.  For polygon an absent, null or empty [results] stands for one
    empty aggregate: the record then has 0.0 in all six numeric fields and
    a null timestamp; it is not the fallback record. *)
Theorem polygon_no_results (symbol : string) (entries : list (string * value)) :
  Py.truthy (get_or_none entries "results") = false ->
  normalize_quote symbol "polygon" (VDict entries)
  = Ok (built (base (Str.upper symbol) "polygon")
          (VFloat Float.zero) (VFloat Float.zero) (VFloat Float.zero)
          (VFloat Float.zero) (VFloat Float.zero) (VFloat Float.zero) VNone).
Proof.
  intros H.
  unfold normalize_quote, normalize_quote_try; simpl String.eqb; cbv iota.
  unfold get_or_none in H.
  unfold polygon_quote; simpl Py.get.
  destruct (Py.lookup entries "results") as [v|]; [|reflexivity].
  cbn [bind]; unfold Py.or_; rewrite H; reflexivity.
Qed.

Lemma polygon_no_results_witness :
  normalize_quote "tsla" "polygon"
    (VDict [("status", VStr "OK"); ("results", VList [])])
  = Ok (built (base "TSLA" "polygon")
          (VFloat Float.zero) (VFloat Float.zero) (VFloat Float.zero)
          (VFloat Float.zero) (VFloat Float.zero) (VFloat Float.zero) VNone).
Proof.
  apply (polygon_no_results "tsla"
           [("status", VStr "OK"); ("results", VList [])]).
  reflexivity.
Defined.

(** X21.  For alpha_vantage a percent change that is present, truthy and
    not a string (a JSON number, say) has no [strip] method: the whole
    record falls back. *)
Theorem alpha_vantage_percent_not_string (symbol : string) (raw gq pct : value) :
  Py.get raw "Global Quote" (VDict []) = Ok gq ->
  Py.get gq "10. change percent" (VStr "0%") = Ok pct ->
  Py.truthy pct = true ->
  (forall s, pct <> VStr s) ->
  falls_back symbol "alpha_vantage" raw.
Proof.
  intros Hgq Hpct Ht Hns.
  apply try_err_falls_back, branch_err; unfold alpha_vantage_quote.
  rewrite Hgq; simpl.
  destruct (float_field0 gq "05. price"); simpl; [|eexists; reflexivity].
  rewrite Hpct; simpl.
  unfold Py.or_; rewrite Ht.
  destruct pct; simpl; try (eexists; reflexivity).
  exfalso; eapply Hns; reflexivity.
Qed.

Lemma alpha_vantage_percent_not_string_witness :
  falls_back "ibm" "alpha_vantage"
    (VDict [("Global Quote",
             VDict [("05. price", VStr "12.5");
                    ("10. change percent", VFloat float_1_23)])]).
Proof.
  apply (alpha_vantage_percent_not_string "ibm" _
           (VDict [("05. price", VStr "12.5");
                   ("10. change percent", VFloat float_1_23)])
           (VFloat float_1_23));
    [reflexivity | reflexivity | reflexivity | discriminate].
Defined.

(** X22.  For alpha_vantage an absent "Global Quote" and a null one differ:
    without the key the record has 0.0 in all six numeric fields and a null
    timestamp, with a null value the record is the fallback record. *)
Theorem alpha_vantage_global_quote_missing (symbol : string)
  (entries : list (string * value)) :
  (Py.lookup entries "Global Quote" = None ->
   normalize_quote symbol "alpha_vantage" (VDict entries)
   = Ok (built (base (Str.upper symbol) "alpha_vantage")
           (VFloat Float.zero) (VFloat Float.zero) (VFloat Float.zero)
           (VFloat Float.zero) (VFloat Float.zero) (VFloat Float.zero)
           VNone))
  /\ (Py.lookup entries "Global Quote" = Some VNone ->
      falls_back symbol "alpha_vantage" (VDict entries)).
Proof.
  split; intros H.
  - unfold normalize_quote, normalize_quote_try; simpl String.eqb; cbv iota.
    unfold alpha_vantage_quote; simpl Py.get; rewrite H; reflexivity.
  - apply try_err_falls_back, branch_err; unfold alpha_vantage_quote.
    simpl Py.get; rewrite H; eexists; reflexivity.
Qed.

Lemma alpha_vantage_global_quote_missing_witness :
  normalize_quote "ibm" "alpha_vantage"
    (VDict [("Note", VStr "rate limit")])
  = Ok (built (base "IBM" "alpha_vantage")
          (VFloat Float.zero) (VFloat Float.zero) (VFloat Float.zero)
          (VFloat Float.zero) (VFloat Float.zero) (VFloat Float.zero) VNone)
  /\ falls_back "ibm" "alpha_vantage" (VDict [("Global Quote", VNone)]).
Proof.
  split.
  - apply (proj1 (alpha_vantage_global_quote_missing "ibm"
                    [("Note", VStr "rate limit")])); reflexivity.
  - apply (proj2 (alpha_vantage_global_quote_missing "ibm"
                    [("Global Quote", VNone)])); reflexivity.
Defined.

(** X23.  For fmp, on a list payload whose first element is an object, only
    the price can make the record fall back.  When the price parses, open,
    dayHigh, dayLow and previousClose are copied unconverted into open,
    high, low and previousClose (a string stays a string, a falsy or absent
    value becomes the integer 0), changePercent is 0.0 and a falsy
    timestamp becomes null. *)
Theorem fmp_fields_unconverted (symbol : string)
  (entries : list (string * value)) (others : list value) :
  normalize_quote symbol "fmp" (VList (VDict entries :: others))
  = match float_field (VDict entries) "price" with
    | Ok price =>
        Ok (built (base (Str.upper symbol) "fmp")
              (VFloat price) (VFloat Float.zero)
              (Py.or_ (get_or_none entries "open") (VInt 0))
              (Py.or_ (get_or_none entries "dayHigh") (VInt 0))
              (Py.or_ (get_or_none entries "dayLow") (VInt 0))
              (Py.or_ (get_or_none entries "previousClose") (VInt 0))
              (Py.or_ (get_or_none entries "timestamp") VNone))
    | Err _ => Ok (fallback (Str.upper symbol) "fmp")
    end.
Proof.
  unfold normalize_quote, normalize_quote_try; simpl String.eqb; cbv iota.
  unfold fmp_quote; simpl Py.item0; simpl bind at 1.
  destruct (float_field (VDict entries) "price") as [price|e]; simpl;
    [reflexivity | now destruct e].
Qed.

(** X24.  A payload of the wrong shape falls back: anything but an object
    for alpha_vantage, finnhub, twelve and polygon, and a non-empty object
    for fmp, whose payload is indexed by position. *)
Theorem wrong_shape_falls_back (symbol provider : string) (raw : value) :
  (In provider ["alpha_vantage"; "finnhub"; "twelve"; "polygon"] ->
   (forall entries, raw <> VDict entries) ->
   falls_back symbol provider raw)
  /\ (forall entry entries,
        falls_back symbol "fmp" (VDict (entry :: entries))).
Proof.
  split.
  - intros Hin Hraw.
    assert (Hget : forall key default,
              exists e, Py.get raw key default = Err e).
    { intros key default; destruct raw; simpl; try (eexists; reflexivity).
      exfalso; eapply Hraw; reflexivity. }
    apply try_err_falls_back.
    simpl in Hin; destruct Hin as [<-|[<-|[<-|[<-|[]]]]]; apply branch_err.
    + unfold alpha_vantage_quote.
      destruct (Hget "Global Quote" (VDict [])) as [e ->]; eexists; reflexivity.
    + unfold finnhub_quote, float_field.
      destruct (Hget "c" VNone) as [e ->]; eexists; reflexivity.
    + unfold twelve_quote, float_field.
      destruct (Hget "price" VNone) as [e ->]; eexists; reflexivity.
    + unfold polygon_quote.
      destruct (Hget "results" VNone) as [e ->]; eexists; reflexivity.
  - intros entry entries.
    apply try_err_falls_back, branch_err; eexists; reflexivity.
Qed.

Lemma wrong_shape_falls_back_witness :
  falls_back "tsla" "finnhub" (VStr "<html>Bad Gateway</html>").
Proof.
  apply (proj1 (wrong_shape_falls_back "tsla" "finnhub"
                  (VStr "<html>Bad Gateway</html>")));
    [simpl; tauto | discriminate].
Defined.

(** * Properties of the database probe *)




Section ProbeProperties.

Variable getenv : string -> option string.
Variable database_import : import_outcome.

Local Notation report := (test_database getenv database_import).

(** X25.  The report of [test_database] always has the same six keys in the
    same order, and its backend is always "Running".  Its database_url and
    database_name depend on the environment only: whatever the import did,
    they read "Set" when the variable holds a non-empty string and "Not
    Set" otherwise, so "Configured" and the name of the database are never
    reported. *)
Theorem test_database_environment_fields :
  exists entries,
    report = VDict entries
    /\ map fst entries
       = ["backend"; "database"; "database_url"; "database_name";
          "connection_status"; "collections"]
    /\ field report "backend" = Some (VStr "✅ Running")
    /\ field report "database_url"
       = Some (VStr (if env_set getenv "DATABASE_URL"
                     then "✅ Set" else "❌ Not Set"))
    /\ field report "database_name"
       = Some (VStr (if env_set getenv "DATABASE_NAME"
                     then "✅ Set" else "❌ Not Set")).
Proof.
  unfold test_database, probe_database.
  destruct database_import as [msg|msg|[db|]];
    try destruct (list_collection_names db);
    (eexists; split; [reflexivity|]; repeat split).
Qed.

(** X26.  The report lists at most ten collections: the first ten names the
    database returns, and none when the module is missing, the import
    raises, [db] is [None] or the listing raises. *)
Theorem test_database_collections :
  exists items,
    field report "collections" = Some (VList items)
    /\ (List.length items <= 10)%nat
    /\ items = match database_import with
               | Imported (Some db) =>
                   match list_collection_names db with
                   | inr names => firstn 10 names
                   | inl _ => []
                   end
               | _ => []
               end.
Proof.
  unfold test_database, probe_database.
  destruct database_import as [msg|msg|[db|]];
    try destruct (list_collection_names db) as [msg|names];
    (eexists; split; [reflexivity|]; split; [|reflexivity]);
    try (simpl; lia).
  apply firstn_le_length.
Qed.

(** X27.  The connection status is "Connected" exactly when the import
    binds a [db] that is not [None], even when listing its collections
    then raises; otherwise it stays "Not Connected". *)
Theorem test_database_connection_status :
  field report "connection_status"
  = Some (VStr (match database_import with
                | Imported (Some _) => "Connected"
                | _ => "Not Connected"
                end)).
Proof.
  unfold test_database, probe_database.
  destruct database_import as [msg|msg|[db|]];
    try destruct (list_collection_names db); reflexivity.
Qed.


End ProbeProperties.

